(** * Verification of the STO tracking client (package [sto], client.go)

    The client signs a trace query, sends it as an HTTP GET and retries
    on failure or when the server asks for it.  This development embeds
    [QueryTrace], [doRequest] and the helpers they call, together with
    the library routines the signature and the URL are built from
    (crypto/md5, encoding/base64, net/url, fmt), and proves the
    properties of the request/retry/signature contract.

    Conventions.
    - A Go [string] or [[]byte] is a Rocq [string]: a sequence of 8-bit
      characters.  Byte-level routines work on [list Z] with every
      element in [0, 256).
    - Go's [int] (64 bits on the supported platforms) and [int64] are
      [Z] with the wrap-around written out by [int_wrap].
    - A Go [error] made by [fmt.Errorf] without [%w] is its message; the
      nil error is [None].
    - Side effects (HTTP exchanges, sleeps, prints, lock operations and
      accesses to the shared fields of the client) are recorded in a
      trace threaded through a small state monad. *)

From Stdlib Require Import ZArith List String Ascii Bool Lia.
From Stdlib Require Import DecimalString.
Import ListNotations.

Local Open Scope Z_scope.

(* ------------------------------------------------------------------ *)
(** ** Machine integers *)

Module GoInt.

(** Smallest and largest values of a 64-bit signed integer. *)
Definition MinInt64 : Z := - 2 ^ 63.
Definition MaxInt64 : Z := 2 ^ 63 - 1.

(** Two's-complement wrap-around of a mathematical integer into the
    range of [int] / [int64]. *)
Definition int_wrap (z : Z) : Z := (z + 2 ^ 63) mod 2 ^ 64 - 2 ^ 63.

Definition add (x y : Z) : Z := int_wrap (x + y).
Definition mul (x y : Z) : Z := int_wrap (x * y).

Definition in_range (z : Z) : Prop := MinInt64 <= z <= MaxInt64.

End GoInt.

(* ------------------------------------------------------------------ *)
(** ** Byte strings *)

Module Bytes.

Definition of_string (s : string) : list Z :=
  map (fun a => Z.of_N (N_of_ascii a)) (list_ascii_of_string s).

(** A byte value. *)
Definition is_byte (b : Z) : Prop := 0 <= b < 256.

(** [strings.HasPrefix]: [p] is an initial segment of [s]. *)
Fixpoint has_prefix (p s : string) : bool :=
  match p with
  | EmptyString => true
  | String a p' =>
      match s with
      | EmptyString => false
      | String b s' => Ascii.eqb a b && has_prefix p' s'
      end
  end.

(** Upper-case hexadecimal digit of a nibble. *)
Definition upperhex (v : Z) : ascii :=
  nth (Z.to_nat v) (list_ascii_of_string "0123456789ABCDEF") "0"%char.

End Bytes.

(* ------------------------------------------------------------------ *)
(** ** crypto/md5 (RFC 1321) *)

Module MD5.

Definition add32 (x y : Z) : Z := (x + y) mod 2 ^ 32.
Definition not32 (x : Z) : Z := Z.lxor x 4294967295.
Definition rotl32 (x s : Z) : Z :=
  Z.lor (Z.shiftl x s mod 2 ^ 32) (Z.shiftr x (32 - s)).

(** [K i = floor (2^32 * |sin (i + 1)|)]. *)
Definition K : list Z :=
  [ 3614090360; 3905402710; 606105819; 3250441966;
    4118548399; 1200080426; 2821735955; 4249261313;
    1770035416; 2336552879; 4294925233; 2304563134;
    1804603682; 4254626195; 2792965006; 1236535329;
    4129170786; 3225465664; 643717713; 3921069994;
    3593408605; 38016083; 3634488961; 3889429448;
    568446438; 3275163606; 4107603335; 1163531501;
    2850285829; 4243563512; 1735328473; 2368359562;
    4294588738; 2272392833; 1839030562; 4259657740;
    2763975236; 1272893353; 4139469664; 3200236656;
    681279174; 3936430074; 3572445317; 76029189;
    3654602809; 3873151461; 530742520; 3299628645;
    4096336452; 1126891415; 2878612391; 4237533241;
    1700485571; 2399980690; 4293915773; 2240044497;
    1873313359; 4264355552; 2734768916; 1309151649;
    4149444226; 3174756917; 718787259; 3951481745 ].

(** Per-step left rotation amounts. *)
Definition shifts : list Z :=
  [ 7; 12; 17; 22; 7; 12; 17; 22; 7; 12; 17; 22; 7; 12; 17; 22;
    5; 9; 14; 20; 5; 9; 14; 20; 5; 9; 14; 20; 5; 9; 14; 20;
    4; 11; 16; 23; 4; 11; 16; 23; 4; 11; 16; 23; 4; 11; 16; 23;
    6; 10; 15; 21; 6; 10; 15; 21; 6; 10; 15; 21; 6; 10; 15; 21 ].

Record state := mkState { sa : Z; sb : Z; sc : Z; sd : Z }.

Definition init : state :=
  mkState 1732584193 4023233417 2562383102 271733878.

(** Little-endian 32-bit words of a byte sequence. *)
Fixpoint words (bs : list Z) : list Z :=
  match bs with
  | b0 :: b1 :: b2 :: b3 :: rest =>
      (b0 + 256 * b1 + 65536 * b2 + 16777216 * b3) :: words rest
  | _ => []
  end.

Definition word_bytes (w : Z) : list Z :=
  [ w mod 256; (w / 256) mod 256; (w / 65536) mod 256;
    (w / 16777216) mod 256 ].

(** The non-linear function and the message word index of step [i]. *)
Definition mix (i b c d : Z) : Z :=
  if i <? 16 then Z.lor (Z.land b c) (Z.land (not32 b) d)
  else if i <? 32 then Z.lor (Z.land d b) (Z.land (not32 d) c)
  else if i <? 48 then Z.lxor (Z.lxor b c) d
  else Z.lxor c (Z.lor b (not32 d)).

Definition index (i : Z) : Z :=
  if i <? 16 then i
  else if i <? 32 then (5 * i + 1) mod 16
  else if i <? 48 then (3 * i + 5) mod 16
  else (7 * i) mod 16.

Definition step (m : list Z) (st : state) (i : nat) : state :=
  let z := Z.of_nat i in
  let f := mix z (sb st) (sc st) (sd st) in
  let t := add32 (add32 (add32 f (sa st)) (nth i K 0))
                 (nth (Z.to_nat (index z)) m 0) in
  mkState (sd st) (add32 (sb st) (rotl32 t (nth i shifts 0)))
          (sb st) (sc st).

(** One 64-byte block folded into the chaining value. *)
Definition block (st : state) (bs : list Z) : state :=
  let r := fold_left (step (words bs)) (seq 0 64) st in
  mkState (add32 (sa st) (sa r)) (add32 (sb st) (sb r))
          (add32 (sc st) (sc r)) (add32 (sd st) (sd r)).

(** Message, then 0x80, zeros up to 56 mod 64, and the bit length as
    a 64-bit little-endian integer. *)
Definition pad (msg : list Z) : list Z :=
  let len := Z.of_nat (List.length msg) in
  let bits := (8 * len) mod 2 ^ 64 in
  msg ++ [128] ++ repeat 0 (Z.to_nat ((55 - len) mod 64))
      ++ word_bytes (bits mod 2 ^ 32) ++ word_bytes (bits / 2 ^ 32).

Fixpoint blocks (n : nat) (st : state) (bs : list Z) : state :=
  match n with
  | O => st
  | S n' => blocks n' (block st (firstn 64 bs)) (skipn 64 bs)
  end.

(** [md5.New(); h.Write(msg); h.Sum(nil)]: the 16-byte digest. *)
Definition Sum (msg : list Z) : list Z :=
  let p := pad msg in
  let r := blocks (Nat.div (List.length p) 64) init p in
  word_bytes (sa r) ++ word_bytes (sb r) ++ word_bytes (sc r)
             ++ word_bytes (sd r).

End MD5.

(* ------------------------------------------------------------------ *)
(** ** encoding/base64, [StdEncoding] *)

Module Base64.

Definition alphabet : string :=
  "ABCDEFGHIJKLMNOPQRSTUVWXYZabcdefghijklmnopqrstuvwxyz0123456789+/".

Definition digit (v : Z) : ascii :=
  nth (Z.to_nat v) (list_ascii_of_string alphabet) "="%char.

(** Position of a character in a list of characters (the length of the
    list when it is absent): the decoding table of the alphabet. *)
Fixpoint position (a : ascii) (l : list ascii) : Z :=
  match l with
  | [] => 0
  | x :: rest => if Ascii.eqb a x then 0 else 1 + position a rest
  end.

Definition value (a : ascii) : Z :=
  position a (list_ascii_of_string alphabet).

Fixpoint encode (bs : list Z) : list ascii :=
  match bs with
  | [] => []
  | [a] =>
      [ digit (a / 4); digit (a mod 4 * 16); "="%char; "="%char ]
  | [a; b] =>
      [ digit (a / 4); digit (a mod 4 * 16 + b / 16);
        digit (b mod 16 * 4); "="%char ]
  | a :: b :: c :: rest =>
      digit (a / 4) :: digit (a mod 4 * 16 + b / 16)
        :: digit (b mod 16 * 4 + c / 64) :: digit (c mod 64)
        :: encode rest
  end.

Definition EncodeToString (bs : list Z) : string :=
  string_of_list_ascii (encode bs).

End Base64.

(* ------------------------------------------------------------------ *)
(** ** fmt: the [%d] verb *)

Module Fmt.

(** Decimal rendering of an integer, with a leading minus sign for
    negative numbers. *)
Definition itoa (z : Z) : string := NilZero.string_of_int (Z.to_int z).

End Fmt.

(* ------------------------------------------------------------------ *)
(** ** net/url: [QueryEscape] and [Values] *)

Module Url.

(** Bytes left alone by [QueryEscape]: letters, digits and [-_.~]. *)
Definition unreserved (b : Z) : bool :=
  ((97 <=? b) && (b <=? 122)) || ((65 <=? b) && (b <=? 90))
  || ((48 <=? b) && (b <=? 57))
  || (b =? 45) || (b =? 95) || (b =? 46) || (b =? 126).

Definition shouldEscape (b : Z) : bool := negb (unreserved b).

Definition escape_byte (b : Z) : list ascii :=
  if b =? 32 then [ "+"%char ]
  else if shouldEscape b
       then [ "%"%char; Bytes.upperhex (b / 16); Bytes.upperhex (b mod 16) ]
       else [ ascii_of_N (Z.to_N b) ].

Definition QueryEscape (s : string) : string :=
  string_of_list_ascii (flat_map escape_byte (Bytes.of_string s)).

(** [url.Values] is a [map[string][]string]; the keys of the
    association list are distinct. *)
Definition Values := list (string * list string).

Fixpoint Add (v : Values) (key value : string) : Values :=
  match v with
  | [] => [ (key, [ value ]) ]
  | (k, vs) :: rest =>
      if String.eqb k key then (k, vs ++ [ value ]) :: rest
      else (k, vs) :: Add rest key value
  end.

Fixpoint Get (v : Values) (key : string) : list string :=
  match v with
  | [] => []
  | (k, vs) :: rest => if String.eqb k key then vs else Get rest key
  end.

Fixpoint insert_key (k : string) (ks : list string) : list string :=
  match ks with
  | [] => [ k ]
  | h :: t => if String.leb k h then k :: ks else h :: insert_key k t
  end.

(** [slices.Sort] on the keys of the map. *)
Definition sorted_keys (v : Values) : list string :=
  fold_right insert_key [] (map fst v).

(** The (key, value) pairs in the order [Values.Encode] visits them:
    keys sorted, the values of a key in the order they were added. *)
Definition pairs (v : Values) : list (string * string) :=
  flat_map (fun k => map (fun x => (k, x)) (Get v k)) (sorted_keys v).

(** [Values.Encode]: escaped [key=value] pairs joined by [&]. *)
Definition Encode (v : Values) : string :=
  String.concat "&"
    (map (fun p => (QueryEscape (fst p) ++ "=" ++ QueryEscape (snd p))%string)
         (pairs v)).

End Url.

(* ------------------------------------------------------------------ *)
(** ** The package [sto]: data model *)

Module Sto.

Definition BaseURL : string :=
  "https://cloudinter-linkgateway.sto.cn/gateway/link.do".

(** [time.Second] in nanoseconds, the unit of [time.Duration]. *)
Definition Second : Z := 1000000000.

Definition DefaultTimeout : Z := 30 * Second.

Definition DefaultMaxRetries : Z := 3.

(** Outcome of a call: a value or the message of an error. *)
Inductive result (A : Type) : Type :=
| Ok (a : A)
| Err (msg : string).

Arguments Ok {A} a.
Arguments Err {A} msg.

(** What [http.NewRequest] builds: method, URL and headers (no body). *)
Record Request := mkRequest {
  Method : string;
  RawURL : string;
  Header : list (string * string)
}.

(** What the transport does with one request: [client.Do] fails, or it
    answers and reading the body fails, or status and body arrive. *)
Inductive exchange : Type :=
| DoError (err : string)
| ReadError (status : Z) (err : string)
| Received (status : Z) (body : string).

(** An HTTP client as the code uses it: the answer to the request of
    the [n]-th call of [Do] (counted from 0). *)
Definition HTTPClient : Type := nat -> Request -> exchange.

Record Client := mkClient {
  AppKey : string;
  AppSecret : string;
  FromCode : string;
  Debug : bool;
  httpClient : option HTTPClient;
  timeout : Z;
  maxRetries : Z
}.

Definition ClientOption : Type := Client -> Client.

Record TraceQueryRequest := mkTraceQueryRequest {
  Order : string;
  WaybillNoList : list string
}.

Record TraceInfo := mkTraceInfo {
  WaybillNo : string;
  OpTime : string;
  OpOrgCode : string;
  OpOrgName : string;
  OpOrgProvinceName : string;
  OpOrgCityName : string;
  OpOrgTel : string;
  OpEmpCode : string;
  OpEmpName : string;
  ScanType : string;
  Weight : string;
  Memo : string;
  BizEmpCode : string;
  BizEmpName : string;
  BizEmpPhone : string;
  BizEmpTel : string;
  NextOrgName : string;
  NextOrgCode : string;
  IssueName : string;
  SignoffPeople : string;
  ContainerNo : string;
  OrderOrgCode : string;
  OrderOrgName : string;
  TransportTaskNo : string;
  CarNo : string;
  OpOrgTypeCode : string;
  PartnerName : string
}.

Record TraceQueryResponse := mkTraceQueryResponse {
  Success : string;
  ErrorCode : string;
  ErrorMsg : string;
  NeedRetry : string;
  RequestId : string;
  ExpInfo : string;
  Data : list (string * list TraceInfo)
}.

(** The parts of the Go runtime the client calls and this development
    does not define: how encoding/json writes a string literal (the
    escaping rules differ between Go releases), how it decodes a
    response body, and the network client [&http.Client{Timeout: t}]. *)
Class Runtime : Type := {
  encodeString : string -> string;
  Unmarshal : string -> result TraceQueryResponse;
  DefaultTransport : Z -> HTTPClient
}.

(* ------------------------------------------------------------------ *)
(** ** Effects *)

(** The two fields of a client that change after construction. *)
Inductive field : Type := FDebug | FHttpClient.

Inductive event : Type :=
| EvPrintf (text : string)          (* fmt.Printf *)
| EvLock                            (* c.mu.Lock() *)
| EvUnlock                          (* c.mu.Unlock() *)
| EvRLock                           (* c.mu.RLock() *)
| EvRUnlock                         (* c.mu.RUnlock() *)
| EvRead (f : field)                (* a read of c.Debug or c.httpClient *)
| EvWrite (f : field)               (* a write of c.Debug or c.httpClient *)
| EvDo (req : Request)              (* client.Do(req) *)
| EvSleep (d : Z).                  (* time.Sleep(d), d in nanoseconds *)

(** The world a call runs in: how many exchanges the transport has
    served, and everything the calling goroutine did, oldest first. *)
Record World := mkWorld {
  calls : nat;
  trace : list event
}.

Definition init_world : World := mkWorld 0 [].

Inductive outcome (A : Type) : Type :=
| Return (a : A) (w : World)
| Panic (msg : string) (w : World)
| OutOfFuel (w : World).

Arguments Return {A} a w.
Arguments Panic {A} msg w.
Arguments OutOfFuel {A} w.

(** The world a computation stopped in, however it stopped. *)
Definition world_of {A : Type} (o : outcome A) : World :=
  match o with
  | Return _ w => w
  | Panic _ w => w
  | OutOfFuel w => w
  end.

Definition M (A : Type) : Type := World -> outcome A.

Definition ret {A : Type} (a : A) : M A := fun w => Return a w.

Definition bind {A B : Type} (m : M A) (k : A -> M B) : M B :=
  fun w =>
    match m w with
    | Return a w' => k a w'
    | Panic msg w' => Panic msg w'
    | OutOfFuel w' => OutOfFuel w'
    end.

Notation "x <- c1 ;; c2" := (bind c1 (fun x => c2))
  (at level 61, c1 at next level, right associativity).
Notation "c1 ;; c2" := (bind c1 (fun _ => c2))
  (at level 61, right associativity).

Definition emit (e : event) : M unit :=
  fun w => Return tt (mkWorld (calls w) (trace w ++ [ e ])).

Definition panic {A : Type} (msg : string) : M A := fun w => Panic msg w.

Definition out_of_fuel {A : Type} : M A := fun w => OutOfFuel w.

Definition when (b : bool) (m : M unit) : M unit := if b then m else ret tt.

Definition Printf (text : string) : M unit := emit (EvPrintf text).

Definition Sleep (d : Z) : M unit := emit (EvSleep d).

(** [client.Do(req)]: a nil client dereferences a nil pointer. *)
Definition Do (client : option HTTPClient) (req : Request) : M exchange :=
  match client with
  | None => panic "invalid memory address or nil pointer dereference"
  | Some h =>
      fun w => Return (h (calls w) req)
                      (mkWorld (S (calls w)) (trace w ++ [ EvDo req ]))
  end.

(* ------------------------------------------------------------------ *)
(** ** The package [sto]: code *)

Section Code.

Context {RT : Runtime}.

Definition dquote : string := String (ascii_of_nat 34) EmptyString.

Definition newline : string := String (ascii_of_nat 10) EmptyString.

(** A JSON object key followed by its colon. *)
Definition json_key (name : string) : string :=
  (dquote ++ name ++ dquote ++ ":")%string.

(** A [[]string]: [null] for the nil slice, else a JSON array.  (The
    empty non-nil slice is not told apart from nil; [Validate] rejects
    both before anything is serialized.) *)
Definition json_strings (l : list string) : string :=
  match l with
  | [] => "null"
  | _ => ("[" ++ String.concat "," (map encodeString l) ++ "]")%string
  end.

(** [json.Marshal(req)]: the fields in declaration order under their
    tags.  Strings and slices of strings never fail to marshal. *)
Definition Marshal (r : TraceQueryRequest) : result string :=
  Ok ("{" ++ json_key "order" ++ encodeString (Order r) ++ ","
          ++ json_key "waybillNoList" ++ json_strings (WaybillNoList r)
          ++ "}")%string.

Definition WithTimeout (t : Z) : ClientOption :=
  fun c => mkClient (AppKey c) (AppSecret c) (FromCode c) (Debug c)
                    (httpClient c) t (maxRetries c).

Definition WithMaxRetries (n : Z) : ClientOption :=
  fun c => mkClient (AppKey c) (AppSecret c) (FromCode c) (Debug c)
                    (httpClient c) (timeout c) n.

Definition WithHTTPClient (h : option HTTPClient) : ClientOption :=
  fun c => mkClient (AppKey c) (AppSecret c) (FromCode c) (Debug c)
                    h (timeout c) (maxRetries c).

Definition NewClient (appKey appSecret fromCode : string)
    (opts : list ClientOption) : Client :=
  let c := mkClient appKey appSecret fromCode false None
                    DefaultTimeout DefaultMaxRetries in
  let c := fold_left (fun c opt => opt c) opts c in
  match httpClient c with
  | None => WithHTTPClient (Some (DefaultTransport (timeout c))) c
  | Some _ => c
  end.

Definition set_Debug (b : bool) (c : Client) : Client :=
  mkClient (AppKey c) (AppSecret c) (FromCode c) b
           (httpClient c) (timeout c) (maxRetries c).

Definition EnableDebug (c : Client) : M Client :=
  emit EvLock ;;
  emit (EvWrite FDebug) ;;
  emit EvUnlock ;;
  ret (set_Debug true c).

Definition DisableDebug (c : Client) : M Client :=
  emit EvLock ;;
  emit (EvWrite FDebug) ;;
  emit EvUnlock ;;
  ret (set_Debug false c).

(** [Validate]: the nil error is [None]. *)
Definition Validate (r : TraceQueryRequest) : option string :=
  if (List.length (WaybillNoList r) =? 0)%nat
  then Some "waybillNoList cannot be empty"%string
  else if negb (String.eqb (Order r) "")
          && negb (String.eqb (Order r) "asc")
          && negb (String.eqb (Order r) "desc")
       then Some "order must be either 'asc' or 'desc'"%string
       else None.

Definition IsSuccess (r : TraceQueryResponse) : bool :=
  String.eqb (Success r) "true".

Definition ShouldRetry (r : TraceQueryResponse) : bool :=
  String.eqb (NeedRetry r) "true".

(** [http.NewRequest(method, url, nil)] on the requests this package
    makes: the method is the constant GET and the URL is [BaseURL]
    followed by [?] and an escaped query, which always parses, so the
    request is built.  On a URL that does not parse [http.NewRequest]
    fails and [doRequest] returns [create request failed] without an
    exchange; [doRequest] is unexported and [QueryTrace], its only
    caller, never passes such a URL, so the statements about
    [doRequest] below are about the URLs of [QueryTrace]. *)
Definition http_NewRequest (method url : string) : result Request :=
  Ok (mkRequest method url []).

Fixpoint header_set (h : list (string * string)) (key value : string)
    : list (string * string) :=
  match h with
  | [] => [ (key, value) ]
  | (k, v) :: rest =>
      if String.eqb k key then (k, value) :: rest
      else (k, v) :: header_set rest key value
  end.

Definition Header_Set (req : Request) (key value : string) : Request :=
  mkRequest (Method req) (RawURL req) (header_set (Header req) key value).

Definition UserAgent : string :=
  "Mozilla/5.0 (compatible; Googlebot/2.1; +http://www.google.com/bot.html)".

(** [doRequest]: one HTTP attempt.  The pair is the response
    pointer (nil is [None]) and the error (nil is [None]). *)
Definition doRequest (c : Client) (requestURL content dataDigest : string)
    : M (option TraceQueryResponse * option string) :=
  emit (EvRead FDebug) ;;
  when (Debug c)
    (Printf ("Request URL: " ++ requestURL ++ newline) ;;
     Printf ("Content: " ++ content ++ newline) ;;
     Printf ("Data Digest: " ++ dataDigest ++ newline)) ;;
  match http_NewRequest "GET" requestURL with
  | Err err => ret (None, Some ("create request failed: " ++ err)%string)
  | Ok req =>
      let req := Header_Set req "User-Agent" UserAgent in
      emit EvRLock ;;
      emit (EvRead FHttpClient) ;;
      let client := httpClient c in
      emit (EvRead FDebug) ;;
      let debug := Debug c in
      emit EvRUnlock ;;
      x <- Do client req ;;
      match x with
      | DoError err => ret (None, Some ("request failed: " ++ err)%string)
      | ReadError _ err =>
          ret (None, Some ("read response failed: " ++ err)%string)
      | Received status body =>
          when debug
            (Printf ("Response Status: " ++ Fmt.itoa status ++ newline) ;;
             Printf ("Response Body: " ++ body ++ newline)) ;;
          if negb (status =? 200)
          then ret (None,
                    Some ("API returned non-200 status code: "
                            ++ Fmt.itoa status ++ ", body: " ++ body)%string)
          else
            match Unmarshal body with
            | Err err =>
                ret (None,
                     Some ("unmarshal response failed: " ++ err
                             ++ ", body: " ++ body)%string)
            | Ok result => ret (Some result, None)
            end
      end
  end.

(** The retry loop of [QueryTrace], from the test [i <= c.maxRetries]
    on.  [fuel] bounds the number of times the test is evaluated. *)
Fixpoint retry (fuel : nat) (c : Client)
    (requestURL content dataDigest : string) (i : Z)
    (resp : option TraceQueryResponse) (lastErr : option string)
    : M (option TraceQueryResponse * option string) :=
  match fuel with
  | O => out_of_fuel
  | S fuel' =>
      if i <=? maxRetries c then
        when (0 <? i)
          (emit (EvRead FDebug) ;;
           when (Debug c)
             (Printf ("Retrying request (attempt " ++ Fmt.itoa i ++ "/"
                        ++ Fmt.itoa (maxRetries c) ++ ")" ++ newline))) ;;
        r <- doRequest c requestURL content dataDigest ;;
        let resp := fst r in
        let lastErr := snd r in
        stop <- match lastErr, resp with
                | Some _, _ => ret false
                | None, Some rsp => ret (negb (ShouldRetry rsp))
                | None, None =>
                    panic "invalid memory address or nil pointer dereference"
                end ;;
        if stop : bool then ret (resp, lastErr)
        else
          when (i <? maxRetries c)
            (Sleep (GoInt.mul (GoInt.add i 1) Second)) ;;
          retry fuel' c requestURL content dataDigest (GoInt.add i 1)
                resp lastErr
      else ret (resp, lastErr)
  end.

(** The signature: base64 of the MD5 digest of content then secret. *)
Definition data_digest (content secret : string) : string :=
  Base64.EncodeToString (MD5.Sum (Bytes.of_string (content ++ secret))).

Definition query_params (c : Client) (content dataDigest : string)
    : Url.Values :=
  let params : Url.Values := [] in
  let params := Url.Add params "content" content in
  let params := Url.Add params "data_digest" dataDigest in
  let params := Url.Add params "from_appkey" (AppKey c) in
  let params := Url.Add params "from_code" (FromCode c) in
  let params := Url.Add params "to_appkey" "sto_trace_query" in
  let params := Url.Add params "to_code" "sto_trace_query" in
  let params := Url.Add params "api_name" "STO_TRACE_QUERY_COMMON" in
  params.

Definition QueryTrace (fuel : nat) (c : Client) (req : TraceQueryRequest)
    : M (option TraceQueryResponse * option string) :=
  match Validate req with
  | Some err => ret (None, Some ("invalid request: " ++ err)%string)
  | None =>
      match Marshal req with
      | Err err => ret (None, Some ("marshal request failed: " ++ err)%string)
      | Ok content =>
          let dataDigest := data_digest content (AppSecret c) in
          let params := query_params c content dataDigest in
          let requestURL := (BaseURL ++ "?" ++ Url.Encode params)%string in
          retry fuel c requestURL content dataDigest 0 None None
      end
  end.


End Code.

End Sto.

(* ------------------------------------------------------------------ *)
(** ** Reading a trace *)

Module Observe.

Import Sto.

(** The requests handed to [client.Do], oldest first. *)
Fixpoint requests (tr : list event) : list Request :=
  match tr with
  | [] => []
  | EvDo req :: rest => req :: requests rest
  | _ :: rest => requests rest
  end.

(** Number of HTTP attempts. *)
Definition attempts (tr : list event) : nat := List.length (requests tr).

(** Attempts and sleeps in the order they happened. *)
Inductive tick : Type :=
| Attempt
| Pause (d : Z).

Fixpoint timeline (tr : list event) : list tick :=
  match tr with
  | [] => []
  | EvDo _ :: rest => Attempt :: timeline rest
  | EvSleep d :: rest => Pause d :: timeline rest
  | _ :: rest => timeline rest
  end.

(** The timeline of [m] attempts, numbered from [k], under linear
    backoff: [k] seconds of sleep after attempt [k] when another attempt
    follows. *)
Fixpoint backoff (k : Z) (m : nat) : list tick :=
  match m with
  | O => []
  | S O => [ Attempt ]
  | S m' => Attempt :: Pause (k * Second) :: backoff (k + 1) m'
  end.

(** Lock discipline of one goroutine: with [readers] read locks and
    [writer] write locks held, every access of a shared field happens
    under the lock (a read under either lock, a write under the write
    lock). *)
Fixpoint guarded (readers writers : nat) (tr : list event) : bool :=
  match tr with
  | [] => true
  | EvLock :: rest => guarded readers (S writers) rest
  | EvUnlock :: rest => guarded readers (Nat.pred writers) rest
  | EvRLock :: rest => guarded (S readers) writers rest
  | EvRUnlock :: rest => guarded (Nat.pred readers) writers rest
  | EvRead _ :: rest =>
      (Nat.ltb 0 readers || Nat.ltb 0 writers) && guarded readers writers rest
  | EvWrite _ :: rest => Nat.ltb 0 writers && guarded readers writers rest
  | _ :: rest => guarded readers writers rest
  end.

Definition well_locked (tr : list event) : bool := guarded 0 0 tr.

(** The error kinds of the specification, told apart by the text that
    [fmt.Errorf] puts in front of the message. *)
Inductive ErrorKind : Type :=
| ValidationError
| TransportError
| HTTPStatusError
| DecodeError.

Definition classify (msg : string) : option ErrorKind :=
  if Bytes.has_prefix "invalid request: " msg then Some ValidationError
  else if Bytes.has_prefix "request failed: " msg then Some TransportError
  else if Bytes.has_prefix "read response failed: " msg then Some TransportError
  else if Bytes.has_prefix "API returned non-200 status code: " msg
       then Some HTTPStatusError
  else if Bytes.has_prefix "unmarshal response failed: " msg then Some DecodeError
  else None.

(** [needle] occurs in [hay]. *)
Fixpoint contains (needle hay : string) : bool :=
  Bytes.has_prefix needle hay
  || match hay with
     | EmptyString => false
     | String _ rest => contains needle rest
     end.

(** What one attempt hands back to the retry loop, as a function of what
    the transport did (the specification of [doRequest]). *)
Definition attempt_result {RT : Runtime} (x : exchange)
    : option TraceQueryResponse * option string :=
  match x with
  | DoError err => (None, Some ("request failed: " ++ err)%string)
  | ReadError _ err => (None, Some ("read response failed: " ++ err)%string)
  | Received status body =>
      if status =? 200 then
        match Unmarshal body with
        | Ok r => (Some r, None)
        | Err err =>
            (None, Some ("unmarshal response failed: " ++ err
                           ++ ", body: " ++ body)%string)
        end
      else (None, Some ("API returned non-200 status code: "
                          ++ Fmt.itoa status ++ ", body: " ++ body)%string)
  end.

(** The request [doRequest] builds for a URL. *)
Definition request_for (url : string) : Request :=
  mkRequest "GET" url [ ("User-Agent"%string, UserAgent) ].

(** The events of one attempt up to and including the exchange. *)
Definition request_events (c : Client) (url content dataDigest : string)
    : list event :=
  EvRead FDebug
    :: (if Debug c
        then [ EvPrintf ("Request URL: " ++ url ++ newline);
               EvPrintf ("Content: " ++ content ++ newline);
               EvPrintf ("Data Digest: " ++ dataDigest ++ newline) ]
        else [])
    ++ [ EvRLock; EvRead FHttpClient; EvRead FDebug; EvRUnlock;
         EvDo (request_for url) ].

(** The events of one attempt after the exchange. *)
Definition response_events (c : Client) (x : exchange) : list event :=
  match x with
  | Received status body =>
      if Debug c
      then [ EvPrintf ("Response Status: " ++ Fmt.itoa status ++ newline);
             EvPrintf ("Response Body: " ++ body ++ newline) ]
      else []
  | _ => []
  end.

(** The events of iteration [i] of the loop before its attempt. *)
Definition banner_events (c : Client) (i : Z) : list event :=
  if 0 <? i
  then EvRead FDebug
         :: (if Debug c
             then [ EvPrintf ("Retrying request (attempt " ++ Fmt.itoa i
                                ++ "/" ++ Fmt.itoa (maxRetries c) ++ ")"
                                ++ newline) ]
             else [])
  else [].

(** The events of iteration [i] of the loop after a failed attempt. *)
Definition sleep_events (c : Client) (i : Z) : list event :=
  if i <? maxRetries c
  then [ EvSleep (GoInt.mul (GoInt.add i 1) Second) ]
  else [].

(** An attempt after which the loop stops: no error and no retry hint. *)
Definition clean (r : option TraceQueryResponse * option string) : bool :=
  match r with
  | (Some rsp, None) => negb (ShouldRetry rsp)
  | _ => false
  end.

(** An exchange that yields a decoded response whose retry-hint flag is
    [true]. *)
Definition answers_retry {RT : Runtime} (x : exchange) : Prop :=
  exists body rsp,
    x = Received 200 body /\ Unmarshal body = Ok rsp
    /\ NeedRetry rsp = "true"%string.

(** The request every attempt of [QueryTrace c req] sends. *)
Definition content_of {RT : Runtime} (req : TraceQueryRequest) : string :=
  match Marshal req with
  | Ok content => content
  | Err _ => EmptyString
  end.

Definition url_of {RT : Runtime} (c : Client) (req : TraceQueryRequest)
    : string :=
  let content := content_of req in
  (BaseURL ++ "?"
     ++ Url.Encode (query_params c content (data_digest content (AppSecret c))))
  %string.

Definition request_of {RT : Runtime} (c : Client) (req : TraceQueryRequest)
    : Request :=
  request_for (url_of c req).

(** The requests the claims call invalid. *)
Definition rejected (req : TraceQueryRequest) : bool :=
  match WaybillNoList req with
  | [] => true
  | _ => negb (existsb (String.eqb (Order req))
                       [ EmptyString; "asc"%string; "desc"%string ])
  end.

(** The timeline of [Observe.backoff] with the durations as the code
    computes them, in wrapping 64-bit arithmetic. *)
Fixpoint wbackoff (k : Z) (m : nat) : list tick :=
  match m with
  | O => []
  | S O => [ Attempt ]
  | S m' => Attempt :: Pause (GoInt.mul k Second) :: wbackoff (k + 1) m'
  end.

(** How many attempts the loop makes when the transport has served [k]
    exchanges and [m] iterations remain: up to the first clean one. *)
Fixpoint run_length {RT : Runtime} (h : HTTPClient) (rq : Request)
    (k m : nat) : nat :=
  match m with
  | O => O
  | S m' =>
      if clean (attempt_result (h k rq)) then 1%nat
      else S (run_length h rq (S k) m')
  end.

(** What the loop returns after [len] attempts that started at exchange
    [k]: the last attempt's pair, or the initial one when there were
    none. *)
Definition final_result {RT : Runtime} (h : HTTPClient) (rq : Request)
    (start : option TraceQueryResponse * option string) (k len : nat)
    : option TraceQueryResponse * option string :=
  match len with
  | O => start
  | S len' => attempt_result (h (k + len')%nat rq)
  end.

(** The options of the package, as its three constructors build them. *)
Inductive Setting : Type :=
| SetTimeout (t : Z)
| SetMaxRetries (n : Z)
| SetHTTPClient (h : option HTTPClient).

Definition option_of (s : Setting) : ClientOption :=
  match s with
  | SetTimeout t => WithTimeout t
  | SetMaxRetries n => WithMaxRetries n
  | SetHTTPClient h => WithHTTPClient h
  end.

(** The value the last setting of each kind leaves, [d] when there is
    none. *)
Fixpoint last_timeout (l : list Setting) (d : Z) : Z :=
  match l with
  | [] => d
  | SetTimeout t :: rest => last_timeout rest t
  | _ :: rest => last_timeout rest d
  end.

Fixpoint last_retries (l : list Setting) (d : Z) : Z :=
  match l with
  | [] => d
  | SetMaxRetries n :: rest => last_retries rest n
  | _ :: rest => last_retries rest d
  end.

Fixpoint last_client (l : list Setting) (d : option HTTPClient)
    : option HTTPClient :=
  match l with
  | [] => d
  | SetHTTPClient h :: rest => last_client rest h
  | _ :: rest => last_client rest d
  end.


(** What was printed, oldest first. *)
Fixpoint printed (tr : list event) : list string :=
  match tr with
  | [] => []
  | EvPrintf text :: rest => text :: printed rest
  | _ :: rest => printed rest
  end.

(** A trace without its prints, and an outcome seen without them. *)
Fixpoint silent (tr : list event) : list event :=
  match tr with
  | [] => []
  | EvPrintf _ :: rest => silent rest
  | e :: rest => e :: silent rest
  end.

Definition mute {A : Type} (o : outcome A) : outcome A :=
  match o with
  | Return a w => Return a (mkWorld (calls w) (silent (trace w)))
  | Panic msg w => Panic msg (mkWorld (calls w) (silent (trace w)))
  | OutOfFuel w => OutOfFuel (mkWorld (calls w) (silent (trace w)))
  end.

(** Time asked of [time.Sleep] in all, in nanoseconds. *)
Fixpoint total_pause (tl : list tick) : Z :=
  match tl with
  | [] => 0
  | Pause d :: rest => d + total_pause rest
  | Attempt :: rest => total_pause rest
  end.

Definition total_sleep (tr : list event) : Z := total_pause (timeline tr).

(** The locks held after a trace, starting with [readers] read locks
    and [writers] write locks. *)
Fixpoint locks_after (readers writers : nat) (tr : list event) : nat * nat :=
  match tr with
  | [] => (readers, writers)
  | EvLock :: rest => locks_after readers (S writers) rest
  | EvUnlock :: rest => locks_after readers (Nat.pred writers) rest
  | EvRLock :: rest => locks_after (S readers) writers rest
  | EvRUnlock :: rest => locks_after (Nat.pred readers) writers rest
  | _ :: rest => locks_after readers writers rest
  end.

(** No lock is held whenever the goroutine blocks: in an HTTP exchange
    or in a sleep. *)
Fixpoint blocks_unlocked (readers writers : nat) (tr : list event) : bool :=
  match tr with
  | [] => true
  | EvLock :: rest => blocks_unlocked readers (S writers) rest
  | EvUnlock :: rest => blocks_unlocked readers (Nat.pred writers) rest
  | EvRLock :: rest => blocks_unlocked (S readers) writers rest
  | EvRUnlock :: rest => blocks_unlocked (Nat.pred readers) writers rest
  | EvDo _ :: rest | EvSleep _ :: rest =>
      Nat.eqb readers 0 && Nat.eqb writers 0
      && blocks_unlocked readers writers rest
  | _ :: rest => blocks_unlocked readers writers rest
  end.

(** Occurrences of a character in a string. *)
Fixpoint count_char (a : ascii) (s : string) : nat :=
  match s with
  | EmptyString => O
  | String b rest =>
      ((if Ascii.eqb a b then 1 else 0) + count_char a rest)%nat
  end.

End Observe.

(* ------------------------------------------------------------------ *)
(** ** A laboratory: a runtime and transports to run the code on *)

Module Lab.

Import Sto.

Definition blank_response : TraceQueryResponse :=
  mkTraceQueryResponse "" "" "" "" "" "" [].

Definition retry_response : TraceQueryResponse :=
  mkTraceQueryResponse "false" "009" "busy" "true" "r-1" "" [].

Definition ok_response : TraceQueryResponse :=
  mkTraceQueryResponse "true" "" "" "false" "r-2" "" [].

Definition field_text (name value : string) : string :=
  (dquote ++ name ++ dquote ++ ":" ++ dquote ++ value ++ dquote)%string.

Definition retry_body : string :=
  ("{" ++ field_text "success" "false" ++ ","
       ++ field_text "errorCode" "009" ++ ","
       ++ field_text "errorMsg" "busy" ++ ","
       ++ field_text "needRetry" "true" ++ ","
       ++ field_text "requestId" "r-1" ++ "}")%string.

Definition ok_body : string :=
  ("{" ++ field_text "success" "true" ++ ","
       ++ field_text "needRetry" "false" ++ ","
       ++ field_text "requestId" "r-2" ++ "}")%string.

(** A runtime that agrees with Go's on what the examples use: strings of
    letters and digits are written between quotes, the two bodies above
    decode to the two responses above, the empty object to the zero
    response, and anything else is taken for malformed. *)
#[export] Instance runtime : Runtime := {
  encodeString := fun s => (dquote ++ s ++ dquote)%string;
  Unmarshal := fun body =>
    if String.eqb body retry_body then Ok retry_response
    else if String.eqb body ok_body then Ok ok_response
    else if String.eqb body "{}" then Ok blank_response
    else Err "invalid character";
  DefaultTransport := fun _ _ _ => DoError "dial tcp: network is unreachable"
}.

(** Transports. *)
Definition always_retry : HTTPClient := fun _ _ => Received 200 retry_body.

(** The error of [client.Do] when nothing listens: the text of a
    [*url.Error]. *)
Definition refused (rq : Request) : string :=
  ("Get " ++ dquote ++ RawURL rq ++ dquote
     ++ ": dial tcp 127.0.0.1:443: connect: connection refused")%string.

Definition always_fail : HTTPClient := fun _ rq => DoError (refused rq).

Definition retry_then_ok : HTTPClient :=
  fun n _ => match n with
             | O => Received 200 retry_body
             | _ => Received 200 ok_body
             end.

Definition client (h : HTTPClient) (n : Z) : Client :=
  NewClient "KEY" "SECRET" "CODE" [ WithHTTPClient (Some h); WithMaxRetries n ].

Definition query : TraceQueryRequest :=
  mkTraceQueryRequest "asc" [ "773123456789012"%string ].

End Lab.

Example md5_empty :
  Base64.EncodeToString (MD5.Sum (Bytes.of_string "")) = "1B2M2Y8AsgTpgAmY7PhCfg=="%string.
Proof. vm_compute. reflexivity. Qed.

Example md5_abc :
  Base64.EncodeToString (MD5.Sum (Bytes.of_string "abc")) = "kAFQmDzST7DWlj99KOF/cg=="%string.
Proof. vm_compute. reflexivity. Qed.

Example md5_a70 :
  MD5.Sum (repeat 97 70) =
  [15; 92; 108; 78; 116; 11; 252; 192; 140; 60; 38; 204; 178; 103; 61; 70].
Proof. vm_compute. reflexivity. Qed.

Example escape_ex : Url.QueryEscape "{a:[x y]}~/+" = "%7Ba%3A%5Bx+y%5D%7D~%2F%2B"%string.
Proof. vm_compute. reflexivity. Qed.
Example itoa_ex : (Fmt.itoa 0, Fmt.itoa (-15), Fmt.itoa 200) = ("0", "-15", "200")%string.
Proof. vm_compute. reflexivity. Qed.
Example enc_ex : Url.Encode (Url.Add (Url.Add (Url.Add [] "b" "1") "a" "x&") "b" "2") = "a=x%26&b=1&b=2"%string.
Proof. vm_compute. reflexivity. Qed.

(* ------------------------------------------------------------------ *)
(** ** Wrap-around arithmetic *)

Lemma int_wrap_small (z : Z) :
  GoInt.MinInt64 <= z <= GoInt.MaxInt64 -> GoInt.int_wrap z = z.
Proof.
  unfold GoInt.int_wrap, GoInt.MinInt64, GoInt.MaxInt64. intros H.
  rewrite Z.mod_small; lia.
Qed.

Lemma int_wrap_range (z : Z) : GoInt.in_range (GoInt.int_wrap z).
Proof.
  unfold GoInt.in_range, GoInt.int_wrap, GoInt.MinInt64, GoInt.MaxInt64.
  pose proof (Z.mod_pos_bound (z + 2 ^ 63) (2 ^ 64) ltac:(lia)). lia.
Qed.

Lemma add_one_small (i : Z) :
  GoInt.MinInt64 <= i < GoInt.MaxInt64 -> GoInt.add i 1 = i + 1.
Proof.
  intros H. unfold GoInt.add. apply int_wrap_small. lia.
Qed.

Lemma seconds_small (k : Z) :
  0 <= k <= 9223372036 -> GoInt.mul k Sto.Second = k * Sto.Second.
Proof.
  intros H. unfold GoInt.mul. apply int_wrap_small.
  unfold GoInt.MinInt64, GoInt.MaxInt64, Sto.Second. lia.
Qed.

(* ------------------------------------------------------------------ *)
(** ** Traces *)

Section TraceFacts.

Import Sto Observe.

Lemma requests_app (a b : list event) :
  requests (a ++ b) = requests a ++ requests b.
Proof.
  induction a as [| e a IH]; simpl; [reflexivity |].
  destruct e; simpl; rewrite IH; reflexivity.
Qed.

Lemma timeline_app (a b : list event) :
  timeline (a ++ b) = timeline a ++ timeline b.
Proof.
  induction a as [| e a IH]; simpl; [reflexivity |].
  destruct e; simpl; rewrite IH; reflexivity.
Qed.

Lemma requests_request_events c url content dd :
  requests (request_events c url content dd) = [ request_for url ].
Proof. unfold request_events. destruct (Debug c); reflexivity. Qed.

Lemma timeline_request_events c url content dd :
  timeline (request_events c url content dd) = [ Attempt ].
Proof. unfold request_events. destruct (Debug c); reflexivity. Qed.

Lemma requests_response_events c x : requests (response_events c x) = [].
Proof. destruct x; simpl; try reflexivity. destruct (Debug c); reflexivity. Qed.

Lemma timeline_response_events c x : timeline (response_events c x) = [].
Proof. destruct x; simpl; try reflexivity. destruct (Debug c); reflexivity. Qed.

Lemma requests_banner_events c i : requests (banner_events c i) = [].
Proof.
  unfold banner_events. destruct (0 <? i); [| reflexivity].
  destruct (Debug c); reflexivity.
Qed.

Lemma timeline_banner_events c i : timeline (banner_events c i) = [].
Proof.
  unfold banner_events. destruct (0 <? i); [| reflexivity].
  destruct (Debug c); reflexivity.
Qed.

Lemma requests_sleep_events c i : requests (sleep_events c i) = [].
Proof. unfold sleep_events. destruct (i <? maxRetries c); reflexivity. Qed.

End TraceFacts.

(* ------------------------------------------------------------------ *)
(** ** One attempt and one iteration *)

Section Steps.

Import Sto Observe.

Context {RT : Runtime}.

Lemma attempt_result_shape (x : exchange) :
  (exists rsp, attempt_result x = (Some rsp, None))
  \/ (exists msg, attempt_result x = (None, Some msg)).
Proof.
  destruct x as [err | st err | st body]; simpl; eauto.
  destruct (st =? 200); eauto.
  destruct (Unmarshal body); eauto.
Qed.

(** [doRequest] performs one exchange and hands back what
    [attempt_result] says. *)
Lemma doRequest_run c h url content dd w :
  httpClient c = Some h ->
  doRequest c url content dd w =
  Return (attempt_result (h (calls w) (request_for url)))
         (mkWorld (S (calls w))
                  (trace w ++ request_events c url content dd
                     ++ response_events c (h (calls w) (request_for url)))).
Proof.
  intros Hh. unfold doRequest, http_NewRequest.
  change (Header_Set _ _ _) with (request_for url).
  rewrite Hh. destruct w as [k tr].
  unfold request_events, response_events, attempt_result.
  destruct (Debug c);
    cbv [bind when emit Printf Do ret calls trace];
    destruct (h k (request_for url)) as [err | st err | st body];
    rewrite <- ?app_assoc; cbn [app]; try reflexivity.
  all: destruct (st =? 200); cbn [negb]; try reflexivity.
  all: destruct (Unmarshal body); rewrite <- ?app_assoc; try reflexivity.
Qed.

(** Without a transport the attempt panics. *)
Lemma doRequest_nil c url content dd w :
  httpClient c = None ->
  exists msg w', doRequest c url content dd w = Panic msg w'.
Proof.
  intros Hh. unfold doRequest, http_NewRequest. rewrite Hh.
  destruct (Debug c); cbv [bind when emit Printf Do ret panic]; eauto.
Qed.

(** The events before and after the attempt of one iteration. *)
Lemma banner_run c i w :
  when (0 <? i)
    (emit (EvRead FDebug);;
     when (Debug c)
       (Printf ("Retrying request (attempt " ++ Fmt.itoa i ++ "/"
                  ++ Fmt.itoa (maxRetries c) ++ ")" ++ newline))) w
  = Return tt (mkWorld (calls w) (trace w ++ banner_events c i)).
Proof.
  unfold banner_events. destruct w as [k tr].
  destruct (0 <? i); [destruct (Debug c) |];
    cbv [when bind emit Printf ret calls trace];
    rewrite <- ?app_assoc, ?app_nil_r; reflexivity.
Qed.

Lemma sleep_run c i w :
  when (i <? maxRetries c) (Sleep (GoInt.mul (GoInt.add i 1) Second)) w
  = Return tt (mkWorld (calls w) (trace w ++ sleep_events c i)).
Proof.
  unfold sleep_events. destruct w as [k tr].
  destruct (i <? maxRetries c);
    cbv [when Sleep emit ret calls trace]; rewrite ?app_nil_r; reflexivity.
Qed.

(** The loop unfolded once. *)
Lemma retry_S fuel c url content dd i resp err :
  retry (S fuel) c url content dd i resp err =
  if i <=? maxRetries c then
    when (0 <? i)
      (emit (EvRead FDebug) ;;
       when (Debug c)
         (Printf ("Retrying request (attempt " ++ Fmt.itoa i ++ "/"
                    ++ Fmt.itoa (maxRetries c) ++ ")" ++ newline))) ;;
    r <- doRequest c url content dd ;;
    stop <- match snd r, fst r with
            | Some _, _ => ret false
            | None, Some rsp => ret (negb (ShouldRetry rsp))
            | None, None =>
                panic "invalid memory address or nil pointer dereference"
            end ;;
    if stop : bool then ret (fst r, snd r)
    else
      when (i <? maxRetries c)
        (Sleep (GoInt.mul (GoInt.add i 1) Second)) ;;
      retry fuel c url content dd (GoInt.add i 1) (fst r) (snd r)
  else ret (resp, err).
Proof. reflexivity. Qed.

(** One turn of the loop. *)
Lemma retry_step fuel c h url content dd i resp err w :
  httpClient c = Some h ->
  i <= maxRetries c ->
  let x := h (calls w) (request_for url) in
  let w1 := mkWorld (S (calls w))
                    (trace w ++ banner_events c i
                       ++ request_events c url content dd
                       ++ response_events c x) in
  retry (S fuel) c url content dd i resp err w =
  if clean (attempt_result x) then Return (attempt_result x) w1
  else retry fuel c url content dd (GoInt.add i 1)
             (fst (attempt_result x)) (snd (attempt_result x))
             (mkWorld (calls w1) (trace w1 ++ sleep_events c i)).
Proof.
  intros Hh Hi x w1. rewrite retry_S.
  destruct (Z.leb_spec i (maxRetries c)) as [_ | Hn]; [| lia].
  unfold bind at 1. rewrite banner_run.
  unfold bind at 1. rewrite (doRequest_run c h url content dd _ Hh).
  cbn [calls trace]. fold x.
  replace (mkWorld (S (calls w))
             ((trace w ++ banner_events c i)
                ++ request_events c url content dd ++ response_events c x))
    with w1 by (unfold w1; rewrite <- app_assoc; reflexivity).
  destruct (attempt_result_shape x) as [[rsp Hr] | [msg Hr]]; rewrite Hr;
    cbn [fst snd clean].
  - unfold bind at 1. unfold ret at 1.
    destruct (ShouldRetry rsp); cbn [negb].
    + unfold bind at 1. rewrite sleep_run. reflexivity.
    + reflexivity.
  - unfold bind at 1. unfold ret at 1.
    unfold bind at 1. rewrite sleep_run. reflexivity.
Qed.
(** Past the last index the loop hands back what it holds. *)
Lemma retry_exit fuel c url content dd i resp err w :
  maxRetries c < i ->
  retry (S fuel) c url content dd i resp err w = Return (resp, err) w.
Proof.
  intros Hi. rewrite retry_S.
  destruct (Z.leb_spec i (maxRetries c)); [lia | reflexivity].
Qed.

End Steps.

(* ------------------------------------------------------------------ *)
(** ** The retry loop *)

Section Loop.

Import Sto Observe.

Context {RT : Runtime}.

Lemma timeline_sleep_events c i :
  timeline (sleep_events c i) =
  if i <? maxRetries c then [ Pause (GoInt.mul (GoInt.add i 1) Second) ] else [].
Proof. unfold sleep_events. destruct (i <? maxRetries c); reflexivity. Qed.

Lemma run_length_zero h rq k m : run_length h rq k m = O -> m = O.
Proof.
  destruct m; simpl; [reflexivity |].
  destruct (clean _); discriminate.
Qed.

Lemma run_length_le h rq m : forall k, (run_length h rq k m <= m)%nat.
Proof.
  induction m as [| m IH]; intros k; simpl; [lia |].
  destruct (clean _); [lia |]. specialize (IH (S k)). lia.
Qed.

(** The loop from index [i] on, when the counter cannot overflow: it
    returns after [run_length] attempts. *)
Lemma retry_run c h url content dd :
  httpClient c = Some h ->
  maxRetries c < GoInt.MaxInt64 ->
  forall m fuel i resp err w,
    0 <= i ->
    Z.of_nat m = maxRetries c + 1 - i ->
    (m < fuel)%nat ->
    let rq := request_for url in
    let len := run_length h rq (calls w) m in
    exists w',
      retry fuel c url content dd i resp err w =
        Return (final_result h rq (resp, err) (calls w) len) w'
      /\ calls w' = (calls w + len)%nat
      /\ requests (trace w') = requests (trace w) ++ repeat rq len
      /\ timeline (trace w') = timeline (trace w) ++ wbackoff (i + 1) len.
Proof.
  intros Hh Hmax. induction m as [| m IH]; intros fuel i resp err w Hi Hm Hf rq len.
  - destruct fuel as [| fuel]; [lia |].
    exists w. subst len. cbn [run_length final_result repeat wbackoff].
    rewrite retry_exit by lia. rewrite Nat.add_0_r, !app_nil_r. auto.
  - destruct fuel as [| fuel]; [lia |].
    rewrite (retry_step fuel c h url content dd i resp err w Hh) by lia.
    fold rq. subst len. cbn [run_length].
    set (x := h (calls w) rq).
    destruct (clean (attempt_result x)) eqn:Hc.
    + cbn [final_result]. rewrite Nat.add_0_r. fold x.
      eexists. split; [reflexivity |]. cbn [calls trace].
      rewrite !requests_app, !timeline_app.
      rewrite requests_banner_events, requests_request_events,
        requests_response_events, timeline_banner_events,
        timeline_request_events, timeline_response_events.
      cbn [app repeat wbackoff].
      repeat split; try reflexivity. lia.
    + cbn [calls trace].
      rewrite add_one_small by (unfold GoInt.MinInt64; lia).
      match goal with
      | |- context [retry fuel c url content dd (i + 1) ?r ?e ?w2] =>
          destruct (IH fuel (i + 1) r e w2 ltac:(lia) ltac:(lia) ltac:(lia))
            as (w' & Hrun & Hcalls & Hreq & Htl)
      end.
      cbn [calls trace] in *. fold rq in Hrun, Hcalls, Hreq, Htl.
      exists w'. rewrite Hrun.
      set (len' := run_length h rq (S (calls w)) m) in *.
      split; [| split; [| split]].
      * f_equal. destruct len' as [| l]; cbn [final_result].
        -- rewrite Nat.add_0_r. fold x. symmetry. apply surjective_pairing.
        -- rewrite Nat.add_succ_r. reflexivity.
      * lia.
      * rewrite Hreq. rewrite !requests_app.
        rewrite requests_banner_events, requests_request_events,
          requests_response_events, requests_sleep_events.
        cbn [app repeat]. rewrite app_nil_r, <- app_assoc. reflexivity.
      * rewrite Htl. rewrite !timeline_app.
        rewrite timeline_banner_events, timeline_request_events,
          timeline_response_events, timeline_sleep_events.
        cbn [app]. rewrite <- !app_assoc. f_equal.
        destruct len' as [| l] eqn:Hl.
        -- apply run_length_zero in Hl. subst m.
           destruct (Z.ltb_spec i (maxRetries c)); [lia |]. reflexivity.
        -- assert (m <> O).
           { intros ->. subst len'. discriminate. }
           destruct (Z.ltb_spec i (maxRetries c)); [| lia].
           rewrite add_one_small by (unfold GoInt.MinInt64; lia).
           reflexivity.
Qed.
End Loop.

(* ------------------------------------------------------------------ *)
(** ** [QueryTrace] *)

Section Query.

Import Sto Observe.

Context {RT : Runtime}.

(** A valid request goes to the loop with the URL, content and digest
    computed once. *)
Lemma QueryTrace_valid fuel c req :
  Validate req = None ->
  QueryTrace fuel c req =
  retry fuel c (url_of c req) (content_of req)
        (data_digest (content_of req) (AppSecret c)) 0 None None.
Proof. intros Hv. unfold QueryTrace. rewrite Hv. reflexivity. Qed.

Lemma QueryTrace_invalid fuel c req msg w :
  Validate req = Some msg ->
  QueryTrace fuel c req w =
  Return (None, Some ("invalid request: " ++ msg)%string) w.
Proof. intros Hv. unfold QueryTrace. rewrite Hv. reflexivity. Qed.

Lemma answers_retry_result (x : exchange) :
  answers_retry x ->
  exists rsp, attempt_result x = (Some rsp, None) /\ ShouldRetry rsp = true.
Proof.
  intros (body & rsp & -> & Hu & Hn). exists rsp. simpl. rewrite Hu.
  split; [reflexivity |]. unfold ShouldRetry. rewrite Hn. reflexivity.
Qed.

Lemma answers_retry_dirty (x : exchange) :
  answers_retry x -> clean (attempt_result x) = false.
Proof.
  intros H. destruct (answers_retry_result x H) as (rsp & -> & Hs).
  simpl. rewrite Hs. reflexivity.
Qed.

Lemma run_length_dirty h rq m :
  (forall k, clean (attempt_result (h k rq)) = false) ->
  forall k, run_length h rq k m = m.
Proof.
  intros Hd. induction m as [| m IH]; intros k; simpl; [reflexivity |].
  rewrite Hd, IH. reflexivity.
Qed.

Lemma attempts_repeat (tr : list event) (rq : Request) (n : nat) :
  requests tr = repeat rq n -> attempts tr = n.
Proof. intros H. unfold attempts. rewrite H. apply repeat_length. Qed.

(** C1 (as amended): with [maxRetries = n], [0 <= n < 2^63 - 1], and a
    transport whose every exchange yields a decoded response with the
    retry-hint flag set, [QueryTrace] on a valid request performs exactly
    [n + 1] attempts and then returns what the last attempt produced:
    that attempt's response and the nil error. *)
Theorem retry_bound c req h n fuel :
  httpClient c = Some h ->
  maxRetries c = n ->
  0 <= n < GoInt.MaxInt64 ->
  Validate req = None ->
  (forall k rq, answers_retry (h k rq)) ->
  (Z.to_nat n + 1 < fuel)%nat ->
  exists w body rsp,
    QueryTrace fuel c req init_world = Return (Some rsp, None) w
    /\ h (Z.to_nat n) (request_of c req) = Received 200 body
    /\ Unmarshal body = Ok rsp
    /\ attempts (trace w) = (Z.to_nat n + 1)%nat
    /\ calls w = (Z.to_nat n + 1)%nat.
Proof.
  intros Hh Hn Hrange Hv Hall Hf.
  rewrite (QueryTrace_valid fuel c req Hv).
  destruct (retry_run c h (url_of c req) (content_of req)
              (data_digest (content_of req) (AppSecret c)) Hh ltac:(lia)
              (Z.to_nat n + 1)%nat fuel 0 None None init_world
              ltac:(lia) ltac:(lia) Hf)
    as (w & Hrun & Hcalls & Hreq & _).
  rewrite run_length_dirty in Hrun, Hcalls, Hreq
    by (intros k; apply answers_retry_dirty, Hall).
  cbn [calls trace init_world requests app] in Hrun, Hcalls, Hreq.
  rewrite Nat.add_1_r in Hrun. cbn [final_result Nat.add] in Hrun.
  destruct (Hall (Z.to_nat n) (request_of c req)) as (body & rsp & Hx & Hu & _).
  exists w, body, rsp. unfold request_of in *.
  rewrite Hx in Hrun. cbn [attempt_result Z.eqb Pos.eqb] in Hrun.
  rewrite Hu in Hrun.
  repeat split; try assumption.
  apply attempts_repeat with (rq := request_for (url_of c req)).
  exact Hreq.
Qed.

(** With [maxRetries] at the largest [int] the test [i <= maxRetries]
    never fails: whatever the fuel, the loop is still running when it is
    spent, one attempt per unit. *)
Lemma retry_forever c h url content dd :
  httpClient c = Some h ->
  maxRetries c = GoInt.MaxInt64 ->
  (forall k rq, clean (attempt_result (h k rq)) = false) ->
  forall fuel i resp err w,
    GoInt.in_range i ->
    exists w',
      retry fuel c url content dd i resp err w = OutOfFuel w'
      /\ attempts (trace w') = (attempts (trace w) + fuel)%nat.
Proof.
  intros Hh Hmax Hd. induction fuel as [| fuel IH]; intros i resp err w Hi.
  - exists w. split; [reflexivity | lia].
  - rewrite (retry_step fuel c h url content dd i resp err w Hh)
      by (rewrite Hmax; apply Hi).
    rewrite Hd. cbn [calls trace].
    match goal with
    | |- context [retry fuel c url content dd _ ?r ?e ?w2] =>
        destruct (IH (GoInt.add i 1) r e w2 (int_wrap_range _))
          as (w' & Hrun & Hatt)
    end.
    exists w'. split; [exact Hrun |]. rewrite Hatt.
    unfold attempts. cbn [trace]. rewrite !requests_app.
    rewrite requests_banner_events, requests_request_events,
      requests_response_events, requests_sleep_events.
    rewrite !length_app. cbn [List.length]. lia.
Qed.

End Query.

#[local] Existing Instance Lab.runtime.

(** The retry bound on a run: two retries allowed, three attempts made. *)
Lemma retry_bound_witness :
  exists w body rsp,
    Sto.QueryTrace 4 (Lab.client Lab.always_retry 2) Lab.query Sto.init_world
      = Sto.Return (Some rsp, None) w
    /\ Lab.always_retry (Z.to_nat 2)
         (Observe.request_of (Lab.client Lab.always_retry 2) Lab.query)
       = Sto.Received 200 body
    /\ Sto.Unmarshal body = Sto.Ok rsp
    /\ Observe.attempts (Sto.trace w) = (Z.to_nat 2 + 1)%nat
    /\ Sto.calls w = (Z.to_nat 2 + 1)%nat.
Proof.
  apply (retry_bound (Lab.client Lab.always_retry 2) Lab.query
           Lab.always_retry 2 4).
  - reflexivity.
  - reflexivity.
  - unfold GoInt.MaxInt64. lia.
  - reflexivity.
  - intros k rq. exists Lab.retry_body, Lab.retry_response.
    repeat split; reflexivity.
  - simpl. lia.
Defined.

(** C1, counterexample: with [maxRetries = 2^63 - 1], a valid request
    and a transport that always answers with a retry-hinted response,
    [QueryTrace] never returns: for every amount of fuel it is still
    looping when the fuel is spent, having made that many attempts. *)
Lemma retry_bound_fails_at_MaxInt64 :
  (Sto.httpClient (Lab.client Lab.always_retry GoInt.MaxInt64)
     = Some Lab.always_retry
   /\ Sto.maxRetries (Lab.client Lab.always_retry GoInt.MaxInt64)
      = 9223372036854775807
   /\ Sto.Validate Lab.query = None
   /\ (forall k rq, Observe.answers_retry (Lab.always_retry k rq)))
  /\ (forall fuel, exists w,
        Sto.QueryTrace fuel (Lab.client Lab.always_retry GoInt.MaxInt64)
          Lab.query Sto.init_world = Sto.OutOfFuel w
        /\ Observe.attempts (Sto.trace w) = fuel).
Proof.
  assert (Hall : forall k rq, Observe.answers_retry (Lab.always_retry k rq)).
  { intros k rq. exists Lab.retry_body, Lab.retry_response.
    repeat split; reflexivity. }
  split; [repeat split; try reflexivity; exact Hall |].
  intros fuel. rewrite QueryTrace_valid by reflexivity.
  destruct (retry_forever (Lab.client Lab.always_retry GoInt.MaxInt64)
              Lab.always_retry
              (Observe.url_of (Lab.client Lab.always_retry GoInt.MaxInt64)
                              Lab.query)
              (Observe.content_of Lab.query)
              (Sto.data_digest (Observe.content_of Lab.query)
                 (Sto.AppSecret (Lab.client Lab.always_retry GoInt.MaxInt64)))
              eq_refl eq_refl
              (fun k rq => answers_retry_dirty _ (Hall k rq))
              fuel 0 None None Sto.init_world)
    as (w & Hrun & Hatt).
  { unfold GoInt.in_range, GoInt.MinInt64, GoInt.MaxInt64. lia. }
  exists w. split; [exact Hrun | exact Hatt].
Qed.

(* ------------------------------------------------------------------ *)
(** ** Stopping at the first clean attempt *)

Section Stop.

Import Sto Observe.

Context {RT : Runtime}.

Lemma clean_result (r : option TraceQueryResponse * option string) :
  clean r = true ->
  exists rsp, r = (Some rsp, None) /\ ShouldRetry rsp = false.
Proof.
  destruct r as [[rsp |] [msg |]]; simpl; try discriminate.
  intros H. exists rsp. split; [reflexivity |].
  destruct (ShouldRetry rsp); [discriminate | reflexivity].
Qed.

(** Only a 200 answer whose body decodes gives a response. *)
Lemma clean_exchange (x : exchange) (rsp : TraceQueryResponse) :
  attempt_result x = (Some rsp, None) ->
  exists body, x = Received 200 body /\ Unmarshal body = Ok rsp.
Proof.
  destruct x as [err | st err | st body]; cbn [attempt_result];
    try discriminate.
  destruct (Z.eqb_spec st 200) as [-> | _]; [| discriminate].
  destruct (Unmarshal body) as [r | e] eqn:Hu; [| discriminate].
  intros [= ->]. exists body. split; [reflexivity | exact Hu].
Qed.

(** The loop from index [i] on, when the [j] next attempts are not clean
    and the one after them is. *)
Lemma retry_first_clean c h url content dd :
  httpClient c = Some h ->
  maxRetries c <= GoInt.MaxInt64 ->
  forall j fuel i resp err w,
    0 <= i ->
    i + Z.of_nat j <= maxRetries c ->
    (forall k, (k < j)%nat ->
       clean (attempt_result (h (calls w + k)%nat (request_for url))) = false) ->
    clean (attempt_result (h (calls w + j)%nat (request_for url))) = true ->
    (j < fuel)%nat ->
    exists w',
      retry fuel c url content dd i resp err w =
        Return (attempt_result (h (calls w + j)%nat (request_for url))) w'
      /\ calls w' = (calls w + S j)%nat
      /\ requests (trace w') =
         requests (trace w) ++ repeat (request_for url) (S j).
Proof.
  intros Hh Hmax. induction j as [| j IH];
    intros fuel i resp err w Hi Hij Hd Hc Hf;
    (destruct fuel as [| fuel]; [lia |]);
    rewrite (retry_step fuel c h url content dd i resp err w Hh) by lia.
  - rewrite Nat.add_0_r in *. rewrite Hc.
    eexists. split; [reflexivity |]. cbn [calls trace].
    rewrite !requests_app, requests_banner_events, requests_request_events,
      requests_response_events.
    split; [lia | reflexivity].
  - specialize (Hd O ltac:(lia)) as Hd0. rewrite Nat.add_0_r in Hd0.
    rewrite Hd0. cbn [calls trace].
    rewrite add_one_small by (unfold GoInt.MinInt64; lia).
    match goal with
    | |- context [retry fuel c url content dd (i + 1) ?r ?e ?w2] =>
        destruct (IH fuel (i + 1) r e w2) as (w' & Hrun & Hcalls & Hreq)
    end; cbn [calls trace]; try lia.
    + intros k Hk. replace (S (calls w) + k)%nat with (calls w + S k)%nat by lia.
      apply Hd. lia.
    + replace (S (calls w) + j)%nat with (calls w + S j)%nat by lia. exact Hc.
    + cbn [calls trace] in *.
      replace (S (calls w) + j)%nat with (calls w + S j)%nat in Hrun by lia.
      exists w'. split; [exact Hrun |]. split; [lia |].
      rewrite Hreq, !requests_app, requests_banner_events,
        requests_request_events, requests_response_events,
        requests_sleep_events.
      cbn [app repeat]. rewrite app_nil_r, <- app_assoc. reflexivity.
Qed.

(** C2: whatever the transport answers, [QueryTrace] stops at the first
    attempt that yields a response with no error and no retry hint: when
    attempts [0 .. j-1] are not clean and attempt [j] (within the retry
    budget) is, it makes exactly [j + 1] attempts and returns the
    response of attempt [j] with the nil error.  With [j = 1] this is:
    a retry-hinted response on attempt 1 and a clean success on attempt
    2 give the attempt-2 response after exactly one retry. *)
Theorem stops_at_first_clean c req h j fuel :
  httpClient c = Some h ->
  Validate req = None ->
  Z.of_nat j <= maxRetries c <= GoInt.MaxInt64 ->
  (forall k, (k < j)%nat ->
     clean (attempt_result (h k (request_of c req))) = false) ->
  clean (attempt_result (h j (request_of c req))) = true ->
  (j < fuel)%nat ->
  exists w body rsp,
    QueryTrace fuel c req init_world = Return (Some rsp, None) w
    /\ h j (request_of c req) = Received 200 body
    /\ Unmarshal body = Ok rsp
    /\ ShouldRetry rsp = false
    /\ attempts (trace w) = S j
    /\ calls w = S j.
Proof.
  intros Hh Hv Hj Hd Hc Hf.
  rewrite (QueryTrace_valid fuel c req Hv).
  destruct (retry_first_clean c h (url_of c req) (content_of req)
              (data_digest (content_of req) (AppSecret c)) Hh ltac:(lia)
              j fuel 0 None None init_world ltac:(lia) ltac:(lia) Hd Hc Hf)
    as (w & Hrun & Hcalls & Hreq).
  cbn [calls trace init_world requests app Nat.add] in Hrun, Hcalls, Hreq.
  destruct (clean_result _ Hc) as (rsp & Hres & Hs).
  destruct (clean_exchange _ _ Hres) as (body & Hx & Hu).
  exists w, body, rsp. unfold request_of in *. rewrite Hres in Hrun.
  repeat split; try assumption.
  apply attempts_repeat with (rq := request_for (url_of c req)). exact Hreq.
Qed.

End Stop.

(** A retry-hinted answer, then a clean one: one retry, two attempts. *)
Lemma stops_at_first_clean_witness :
  exists w body rsp,
    Sto.QueryTrace 5%nat (Lab.client Lab.retry_then_ok 3) Lab.query Sto.init_world
      = Sto.Return (Some rsp, None) w
    /\ Lab.retry_then_ok 1%nat
         (Observe.request_of (Lab.client Lab.retry_then_ok 3) Lab.query)
       = Sto.Received 200 body
    /\ Sto.Unmarshal body = Sto.Ok rsp
    /\ Sto.ShouldRetry rsp = false
    /\ Observe.attempts (Sto.trace w) = 2%nat
    /\ Sto.calls w = 2%nat.
Proof.
  apply (stops_at_first_clean (Lab.client Lab.retry_then_ok 3) Lab.query
           Lab.retry_then_ok 1%nat 5%nat).
  - reflexivity.
  - reflexivity.
  - unfold GoInt.MaxInt64. simpl. lia.
  - intros k Hk. assert (k = O) by lia. subst k. reflexivity.
  - reflexivity.
  - lia.
Defined.

(* ------------------------------------------------------------------ *)
(** ** Validation and error kinds *)

Section Errors.

Import Sto Observe.

Context {RT : Runtime}.

Lemma prefix_app (a b : string) : Bytes.has_prefix a (a ++ b) = true.
Proof.
  induction a as [| ch a IH]; simpl; [reflexivity |].
  rewrite Ascii.eqb_refl. exact IH.
Qed.

Lemma contains_unfold (needle hay : string) :
  contains needle hay =
  Bytes.has_prefix needle hay
  || match hay with
     | EmptyString => false
     | String _ rest => contains needle rest
     end.
Proof. destruct hay; reflexivity. Qed.

Lemma contains_here (needle rest : string) :
  contains needle (needle ++ rest) = true.
Proof. rewrite contains_unfold, prefix_app. reflexivity. Qed.

Lemma contains_later (needle a b : string) :
  contains needle b = true -> contains needle (a ++ b) = true.
Proof.
  intros H. induction a as [| ch a IH]; simpl; [exact H |].
  rewrite IH. apply orb_true_r.
Qed.

(** [Validate] accepts exactly the requests that are not [rejected]. *)
Lemma Validate_rejected (req : TraceQueryRequest) :
  rejected req = true <-> exists msg, Validate req = Some msg.
Proof.
  unfold Validate, rejected.
  destruct (WaybillNoList req) as [| x l]; cbn [List.length Nat.eqb existsb].
  - split; eauto.
  - destruct (String.eqb (Order req) ""), (String.eqb (Order req) "asc"),
      (String.eqb (Order req) "desc"); cbn [negb andb orb];
      split; intros H; eauto; try discriminate;
      destruct H as [msg H]; discriminate.
Qed.

Lemma rejected_spec (req : TraceQueryRequest) :
  rejected req = true <->
  WaybillNoList req = []
  \/ ~ In (Order req) [ EmptyString; "asc"%string; "desc"%string ].
Proof.
  unfold rejected. destruct (WaybillNoList req) as [| x l].
  - split; auto.
  - rewrite negb_true_iff. split.
    + intros H. right. intros Hin.
      assert (existsb (String.eqb (Order req))
                [ EmptyString; "asc"%string; "desc"%string ] = true) as E.
      { apply existsb_exists. exists (Order req). split; [exact Hin |].
        apply String.eqb_refl. }
      congruence.
    + intros [H | H]; [discriminate |].
      destruct (existsb _ _) eqn:E; [| reflexivity].
      apply existsb_exists in E. destruct E as (y & Hy & Heq).
      apply String.eqb_eq in Heq. subst y. contradiction.
Qed.

(** The error of an attempt is never a validation error. *)
Lemma attempt_error_kind (x : exchange) (msg : string) :
  snd (attempt_result x) = Some msg ->
  classify msg = Some TransportError
  \/ classify msg = Some HTTPStatusError
  \/ classify msg = Some DecodeError.
Proof.
  destruct x as [err | st err | st body]; cbn [attempt_result snd].
  - intros [= <-]. left. reflexivity.
  - intros [= <-]. left. reflexivity.
  - destruct (st =? 200).
    + destruct (Unmarshal body); cbn [snd]; [discriminate |].
      intros [= <-]. right. right. reflexivity.
    + cbn [snd]. intros [= <-]. right. left. reflexivity.
Qed.

(** Whatever the fuel and the client, what the loop returns is what it
    was given or what one attempt produced. *)
Lemma retry_returns c url content dd :
  forall fuel i resp err w r w',
    retry fuel c url content dd i resp err w = Return r w' ->
    r = (resp, err) \/ exists x, r = attempt_result x.
Proof.
  induction fuel as [| fuel IH]; intros i resp err w r w' Hrun.
  - discriminate.
  - destruct (Z.leb_spec i (maxRetries c)) as [Hi | Hi].
    + destruct (httpClient c) as [h |] eqn:Hh.
      * rewrite (retry_step fuel c h url content dd i resp err w Hh Hi) in Hrun.
        destruct (clean _).
        -- injection Hrun as <- _. right. eauto.
        -- apply IH in Hrun. destruct Hrun as [-> | Hx]; [| right; exact Hx].
           right. eexists. symmetry. apply surjective_pairing.
      * rewrite retry_S in Hrun.
        destruct (Z.leb_spec i (maxRetries c)); [| lia].
        unfold bind at 1 in Hrun. rewrite banner_run in Hrun.
        unfold bind at 1 in Hrun.
        destruct (doRequest_nil c url content dd
                    (mkWorld (calls w) (trace w ++ banner_events c i)) Hh)
          as (m & w0 & Hp).
        rewrite Hp in Hrun. discriminate.
    + rewrite retry_exit in Hrun by lia. injection Hrun as <- _. left. reflexivity.
Qed.

(** C3: [QueryTrace] fails with a validation error exactly when the
    waybill list is empty or the order is none of the empty string,
    [asc] and [desc]; and then it returns at once, in the world it
    started in: no exchange and no sleep happened. *)
Theorem validation_error_iff fuel c req w :
  ((exists r w' msg,
      QueryTrace fuel c req w = Return r w'
      /\ snd r = Some msg /\ classify msg = Some ValidationError)
   <->
   (WaybillNoList req = []
    \/ ~ In (Order req) [ EmptyString; "asc"%string; "desc"%string ]))
  /\ ((WaybillNoList req = []
       \/ ~ In (Order req) [ EmptyString; "asc"%string; "desc"%string ]) ->
      exists msg,
        QueryTrace fuel c req w = Return (None, Some msg) w
        /\ classify msg = Some ValidationError).
Proof.
  assert (Hfail : (WaybillNoList req = []
                   \/ ~ In (Order req) [ EmptyString; "asc"%string; "desc"%string ]) ->
                  exists msg,
                    QueryTrace fuel c req w = Return (None, Some msg) w
                    /\ classify msg = Some ValidationError).
  { intros H. apply rejected_spec, Validate_rejected in H.
    destruct H as [msg Hv]. eexists.
    rewrite (QueryTrace_invalid fuel c req msg w Hv).
    split; reflexivity. }
  split; [split |]; [| | exact Hfail].
  - intros (r & w' & msg & Hrun & Hs & Hk).
    apply rejected_spec. destruct (rejected req) eqn:Hr; [reflexivity |].
    exfalso.
    assert (Hv : Validate req = None).
    { destruct (Validate req) as [m |] eqn:Hv; [| reflexivity].
      assert (rejected req = true) by (apply Validate_rejected; eauto).
      congruence. }
    rewrite (QueryTrace_valid fuel c req Hv) in Hrun.
    apply retry_returns in Hrun. destruct Hrun as [-> | [x ->]].
    + discriminate.
    + destruct (attempt_error_kind x msg Hs) as [E | [E | E]]; congruence.
  - intros H. destruct (Hfail H) as (msg & Hrun & Hk).
    exists (None, Some msg), w, msg. auto.
Qed.

(** C6: a client whose [maxRetries] is negative makes no attempt on a
    valid request: [QueryTrace] returns the nil response and the nil
    error in the world it started in. *)
Theorem negative_retries_nil_nil fuel c req w :
  maxRetries c < 0 ->
  Validate req = None ->
  (0 < fuel)%nat ->
  QueryTrace fuel c req w = Return (None, None) w
  /\ attempts (trace (world_of (QueryTrace fuel c req w))) = attempts (trace w).
Proof.
  intros Hn Hv Hf. destruct fuel as [| fuel]; [lia |].
  rewrite (QueryTrace_valid _ c req Hv), retry_exit by lia.
  split; reflexivity.
Qed.

End Errors.

(** A client built with [WithMaxRetries(-1)]. *)
Lemma negative_retries_nil_nil_witness :
  Sto.QueryTrace 1
    (Sto.NewClient "KEY" "SECRET" "CODE" [ Sto.WithMaxRetries (-1) ])
    Lab.query Sto.init_world
  = Sto.Return (None, None) Sto.init_world
  /\ Observe.attempts
       (Sto.trace
          (Sto.world_of
             (Sto.QueryTrace 1
                (Sto.NewClient "KEY" "SECRET" "CODE" [ Sto.WithMaxRetries (-1) ])
                Lab.query Sto.init_world)))
     = Observe.attempts (Sto.trace Sto.init_world).
Proof.
  apply (negative_retries_nil_nil 1
           (Sto.NewClient "KEY" "SECRET" "CODE" [ Sto.WithMaxRetries (-1) ])
           Lab.query Sto.init_world).
  - simpl. lia.
  - reflexivity.
  - lia.
Defined.

(* ------------------------------------------------------------------ *)
(** ** The outcome of one attempt *)

Section Attempt.

Import Sto Observe.

Context {RT : Runtime}.

Lemma contains_refl (s : string) : contains s s = true.
Proof.
  rewrite contains_unfold.
  assert (H : Bytes.has_prefix s s = true).
  { induction s as [| ch s IH]; simpl; [reflexivity |].
    rewrite Ascii.eqb_refl. exact IH. }
  rewrite H. reflexivity.
Qed.

(** C7: one HTTP attempt of [QueryTrace] (the call of [doRequest] with
    the URL, content and digest that [QueryTrace] built from the client
    and the query) performs one exchange and returns, according to what
    the transport did: a transport error when the connection fails (in
    [Do] or while the body is read); an HTTP status error whose message
    holds the status code and the raw body when the status is not 200;
    a decode error when the status is 200 and the body does not decode;
    and otherwise the decoded response with no error. *)
Theorem attempt_outcomes c h req w :
  httpClient c = Some h ->
  exists r w',
    doRequest c (url_of c req) (content_of req)
      (data_digest (content_of req) (AppSecret c)) w
    = Return r w'
    /\ requests (trace w') = requests (trace w) ++ [ request_of c req ]
    /\ (forall err,
          h (calls w) (request_of c req) = DoError err ->
          r = (None, Some ("request failed: " ++ err)%string)
          /\ classify ("request failed: " ++ err) = Some TransportError)
    /\ (forall status err,
          h (calls w) (request_of c req) = ReadError status err ->
          r = (None, Some ("read response failed: " ++ err)%string)
          /\ classify ("read response failed: " ++ err) = Some TransportError)
    /\ (forall status body,
          h (calls w) (request_of c req) = Received status body ->
          status <> 200 ->
          exists msg,
            r = (None, Some msg)
            /\ classify msg = Some HTTPStatusError
            /\ contains (Fmt.itoa status) msg = true
            /\ contains body msg = true)
    /\ (forall body err,
          h (calls w) (request_of c req) = Received 200 body ->
          Unmarshal body = Err err ->
          exists msg,
            r = (None, Some msg) /\ classify msg = Some DecodeError)
    /\ (forall body rsp,
          h (calls w) (request_of c req) = Received 200 body ->
          Unmarshal body = Ok rsp ->
          r = (Some rsp, None)).
Proof.
  intros Hh. unfold request_of.
  rewrite (doRequest_run c h (url_of c req) (content_of req)
             (data_digest (content_of req) (AppSecret c)) w Hh).
  eexists. eexists. split; [reflexivity |]. cbn [trace].
  split.
  { rewrite !requests_app, requests_request_events, requests_response_events.
    rewrite app_nil_r. reflexivity. }
  repeat split.
  - rewrite H. reflexivity.
  - rewrite H. reflexivity.
  - intros status body Hx Hs. rewrite Hx. cbn [attempt_result].
    destruct (Z.eqb_spec status 200) as [| _]; [contradiction |].
    eexists. split; [reflexivity |]. split; [reflexivity |]. split.
    + apply (contains_later _ "API returned non-200 status code: ").
      apply contains_here.
    + apply (contains_later _ "API returned non-200 status code: ").
      apply contains_later. apply (contains_later _ ", body: ").
      apply contains_refl.
  - intros body err Hx Hu. rewrite Hx. cbn [attempt_result Z.eqb Pos.eqb].
    rewrite Hu. eexists. split; reflexivity.
  - intros body rsp Hx Hu. rewrite Hx. cbn [attempt_result Z.eqb Pos.eqb].
    rewrite Hu. reflexivity.
Qed.

End Attempt.

(** An attempt of the laboratory query over a transport that refuses
    the connection. *)
Lemma attempt_outcomes_witness :
  exists r w',
    Sto.doRequest (Lab.client Lab.always_fail 0)
      (Observe.url_of (Lab.client Lab.always_fail 0) Lab.query)
      (Observe.content_of Lab.query)
      (Sto.data_digest (Observe.content_of Lab.query) "SECRET")
      Sto.init_world
    = Sto.Return r w'
    /\ Observe.requests (Sto.trace w')
       = [ Observe.request_of (Lab.client Lab.always_fail 0) Lab.query ]
    /\ r = (None,
            Some ("request failed: "
                    ++ Lab.refused
                         (Observe.request_of (Lab.client Lab.always_fail 0)
                            Lab.query))%string).
Proof.
  destruct (attempt_outcomes (Lab.client Lab.always_fail 0) Lab.always_fail
              Lab.query Sto.init_world eq_refl)
    as (r & w' & Hrun & Hreq & Hdo & _).
  exists r, w'. split; [exact Hrun |]. split; [exact Hreq |].
  exact (proj1 (Hdo _ eq_refl)).
Defined.

(* ------------------------------------------------------------------ *)
(** ** The request that is sent *)

Section Wire.

Import Sto Observe.

Context {RT : Runtime}.

Lemma string_app_assoc (a b c : string) :
  ((a ++ b) ++ c)%string = (a ++ (b ++ c))%string.
Proof.
  induction a as [| ch a IH]; simpl; [reflexivity |]. rewrite IH. reflexivity.
Qed.

(** The attempt before the transport is reached: nothing is sent. *)
Lemma doRequest_nil_requests c url content dd w :
  httpClient c = None ->
  exists msg w',
    doRequest c url content dd w = Panic msg w'
    /\ requests (trace w') = requests (trace w).
Proof.
  intros Hh. unfold doRequest, http_NewRequest. rewrite Hh.
  destruct w as [k tr].
  destruct (Debug c); cbv [bind when emit Printf Do ret panic calls trace];
    eexists; eexists; (split; [reflexivity |]); cbn [trace];
    rewrite !requests_app; cbn [requests]; rewrite !app_nil_r; reflexivity.
Qed.

(** However the loop ends, what it sent is the same request, some
    number of times. *)
Lemma retry_requests c url content dd :
  forall fuel i resp err w,
    exists k,
      requests (trace (world_of (retry fuel c url content dd i resp err w)))
      = requests (trace w) ++ repeat (request_for url) k.
Proof.
  induction fuel as [| fuel IH]; intros i resp err w.
  - exists O. cbn [retry out_of_fuel world_of repeat]. rewrite app_nil_r.
    reflexivity.
  - destruct (Z.leb_spec i (maxRetries c)) as [Hi | Hi].
    + destruct (httpClient c) as [h |] eqn:Hh.
      * rewrite (retry_step fuel c h url content dd i resp err w Hh Hi).
        destruct (clean _).
        -- exists 1%nat. cbn [world_of trace].
           rewrite !requests_app, requests_banner_events,
             requests_request_events, requests_response_events.
           rewrite app_nil_r. reflexivity.
        -- match goal with
           | |- context [retry fuel c url content dd ?i' ?r ?e ?w2] =>
               destruct (IH i' r e w2) as [k Hk]
           end.
           exists (S k). rewrite Hk. cbn [calls trace].
           rewrite !requests_app, requests_banner_events,
             requests_request_events, requests_response_events,
             requests_sleep_events.
           cbn [app repeat]. rewrite app_nil_r, <- app_assoc. reflexivity.
      * exists O. rewrite retry_S.
        destruct (Z.leb_spec i (maxRetries c)); [| lia].
        unfold bind at 1. rewrite banner_run. unfold bind at 1.
        destruct (doRequest_nil_requests c url content dd
                    (mkWorld (calls w) (trace w ++ banner_events c i)) Hh)
          as (m & w0 & Hp & Hr).
        rewrite Hp. cbn [world_of]. rewrite Hr. cbn [trace].
        rewrite requests_app, requests_banner_events. reflexivity.
    + exists O. rewrite retry_exit by lia. cbn [world_of repeat].
      rewrite app_nil_r. reflexivity.
Qed.

Lemma QueryTrace_requests fuel c req :
  Forall (fun rq => rq = request_of c req)
         (requests (trace (world_of (QueryTrace fuel c req init_world)))).
Proof.
  destruct (Validate req) as [msg |] eqn:Hv.
  - rewrite (QueryTrace_invalid fuel c req msg init_world Hv). constructor.
  - rewrite (QueryTrace_valid fuel c req Hv).
    destruct (retry_requests c (url_of c req) (content_of req)
                (data_digest (content_of req) (AppSecret c))
                fuel 0 None None init_world) as [k Hk].
    rewrite Hk. cbn [init_world trace requests app].
    apply Forall_forall. intros rq Hin. apply repeat_spec in Hin. exact Hin.
Qed.

(** C9: within one call of [QueryTrace], every attempt hands the
    transport the same request, the one built before the loop from the
    client and the query: same URL, hence same content and same
    digest.  What the transport saw is that request, once per attempt.
    This holds however the call ends, and for a call cut short as
    well. *)
Theorem same_request_every_attempt fuel c req :
  requests (trace (world_of (QueryTrace fuel c req init_world)))
  = repeat (request_of c req)
           (attempts (trace (world_of (QueryTrace fuel c req init_world)))).
Proof.
  unfold attempts.
  pose proof (QueryTrace_requests fuel c req) as H.
  induction (requests (trace (world_of (QueryTrace fuel c req init_world))))
    as [| rq l IH]; [reflexivity |].
  inversion H as [| ? ? Hrq Hl]; subst.
  cbn [List.length repeat]. f_equal. apply IH. exact Hl.
Qed.

(** A valid query on a client that has a transport and allows an
    attempt: a request is sent, and the first one is the request built
    before the loop. *)
Lemma QueryTrace_first_request c h req fuel :
  httpClient c = Some h ->
  0 <= maxRetries c ->
  Validate req = None ->
  (0 < fuel)%nat ->
  exists rest,
    requests (trace (world_of (QueryTrace fuel c req init_world)))
    = request_of c req :: rest.
Proof.
  intros Hh Hn Hv Hf. destruct fuel as [| fuel]; [lia |].
  rewrite (QueryTrace_valid _ c req Hv).
  rewrite (retry_step fuel c h _ _ _ 0 None None init_world Hh Hn).
  destruct (clean _).
  - exists []. cbn [world_of trace init_world app].
    rewrite !requests_app, requests_banner_events, requests_request_events,
      requests_response_events.
    reflexivity.
  - match goal with
    | |- context [retry fuel c ?u ?ct ?d ?i' ?r ?e ?w2] =>
        destruct (retry_requests c u ct d fuel i' r e w2) as [k Hk]
    end.
    rewrite Hk. cbn [calls trace init_world app].
    rewrite !requests_app, requests_banner_events, requests_request_events,
      requests_response_events, requests_sleep_events.
    cbn [app]. eexists. reflexivity.
Qed.

(** The URL of a call, written out. *)
Lemma url_of_written_out c req :
  url_of c req
  = ("https://cloudinter-linkgateway.sto.cn/gateway/link.do"
       ++ "?" ++ "api_name=STO_TRACE_QUERY_COMMON"
       ++ "&content=" ++ Url.QueryEscape (content_of req)
       ++ "&data_digest="
       ++ Url.QueryEscape (data_digest (content_of req) (AppSecret c))
       ++ "&from_appkey=" ++ Url.QueryEscape (AppKey c)
       ++ "&from_code=" ++ Url.QueryEscape (FromCode c)
       ++ "&to_appkey=sto_trace_query"
       ++ "&to_code=sto_trace_query")%string.
Proof.
  unfold url_of, query_params.
  generalize (data_digest (content_of req) (AppSecret c)) as dd.
  generalize (content_of req) as content.
  generalize (AppKey c) as key. generalize (FromCode c) as code.
  intros code key content dd. unfold Url.Encode.
  replace (Url.pairs _)
    with [ ("api_name", "STO_TRACE_QUERY_COMMON"); ("content", content);
           ("data_digest", dd); ("from_appkey", key); ("from_code", code);
           ("to_appkey", "sto_trace_query");
           ("to_code", "sto_trace_query") ]%string
    by (vm_compute; reflexivity).
  cbn [map fst snd String.concat].
  generalize (Url.QueryEscape dd) as edd.
  generalize (Url.QueryEscape content) as econtent.
  generalize (Url.QueryEscape key) as ekey.
  generalize (Url.QueryEscape code) as ecode.
  intros. vm_compute. reflexivity.
Qed.

(** C5: for a valid query, the serialized content is the JSON object
    with [order] first and [waybillNoList] second, and [QueryTrace]
    enters its loop with that content, its digest and the URL made of
    the vendor endpoint and the query string with exactly the seven
    parameters, keys in sorted order, values URL-escaped.  Every request
    it sends is a GET of that URL; and it does send one as soon as the
    client has a transport and allows an attempt. *)
Theorem request_shape fuel c req :
  Validate req = None ->
  content_of req
  = ("{" ++ dquote ++ "order" ++ dquote ++ ":" ++ encodeString (Order req)
         ++ "," ++ dquote ++ "waybillNoList" ++ dquote ++ ":"
         ++ "[" ++ String.concat "," (map encodeString (WaybillNoList req))
         ++ "]" ++ "}")%string
  /\ QueryTrace fuel c req
     = retry fuel c
         ("https://cloudinter-linkgateway.sto.cn/gateway/link.do"
            ++ "?" ++ "api_name=STO_TRACE_QUERY_COMMON"
            ++ "&content=" ++ Url.QueryEscape (content_of req)
            ++ "&data_digest="
            ++ Url.QueryEscape (data_digest (content_of req) (AppSecret c))
            ++ "&from_appkey=" ++ Url.QueryEscape (AppKey c)
            ++ "&from_code=" ++ Url.QueryEscape (FromCode c)
            ++ "&to_appkey=sto_trace_query"
            ++ "&to_code=sto_trace_query")%string
         (content_of req) (data_digest (content_of req) (AppSecret c))
         0 None None
  /\ Forall
       (fun rq =>
          Method rq = "GET"%string
          /\ RawURL rq
             = ("https://cloudinter-linkgateway.sto.cn/gateway/link.do"
                  ++ "?" ++ "api_name=STO_TRACE_QUERY_COMMON"
                  ++ "&content=" ++ Url.QueryEscape (content_of req)
                  ++ "&data_digest="
                  ++ Url.QueryEscape
                       (data_digest (content_of req) (AppSecret c))
                  ++ "&from_appkey=" ++ Url.QueryEscape (AppKey c)
                  ++ "&from_code=" ++ Url.QueryEscape (FromCode c)
                  ++ "&to_appkey=sto_trace_query"
                  ++ "&to_code=sto_trace_query")%string)
       (requests (trace (world_of (QueryTrace fuel c req init_world))))
  /\ (forall h,
        httpClient c = Some h ->
        0 <= maxRetries c ->
        (0 < fuel)%nat ->
        exists rq rest,
          requests (trace (world_of (QueryTrace fuel c req init_world)))
          = rq :: rest
          /\ Method rq = "GET"%string
          /\ RawURL rq
             = ("https://cloudinter-linkgateway.sto.cn/gateway/link.do"
                  ++ "?" ++ "api_name=STO_TRACE_QUERY_COMMON"
                  ++ "&content=" ++ Url.QueryEscape (content_of req)
                  ++ "&data_digest="
                  ++ Url.QueryEscape
                       (data_digest (content_of req) (AppSecret c))
                  ++ "&from_appkey=" ++ Url.QueryEscape (AppKey c)
                  ++ "&from_code=" ++ Url.QueryEscape (FromCode c)
                  ++ "&to_appkey=sto_trace_query"
                  ++ "&to_code=sto_trace_query")%string).
Proof.
  intros Hv. rewrite <- (url_of_written_out c req).
  split; [| split; [| split]].
  - unfold content_of, Marshal, json_strings, json_key.
    unfold Validate in Hv.
    destruct (WaybillNoList req) as [| x l]; [discriminate |].
    rewrite !string_app_assoc. reflexivity.
  - apply QueryTrace_valid, Hv.
  - eapply Forall_impl; [| apply QueryTrace_requests].
    intros rq ->. split; reflexivity.
  - intros h Hh Hn Hf.
    destruct (QueryTrace_first_request c h req fuel Hh Hn Hv Hf) as [rest Hr].
    exists (request_of c req), rest. rewrite Hr.
    repeat split.
Qed.

End Wire.

(** The laboratory query on a client that allows two retries: requests
    are sent, and each is a GET of the URL written out here. *)
Lemma request_shape_witness :
  exists rq rest,
    Observe.requests
      (Sto.trace
         (Sto.world_of
            (Sto.QueryTrace 4 (Lab.client Lab.always_retry 2) Lab.query
               Sto.init_world)))
    = rq :: rest
    /\ Forall
         (fun rq =>
            Sto.Method rq = "GET"%string
            /\ Sto.RawURL rq
               = "https://cloudinter-linkgateway.sto.cn/gateway/link.do?api_name=STO_TRACE_QUERY_COMMON&content=%7B%22order%22%3A%22asc%22%2C%22waybillNoList%22%3A%5B%22773123456789012%22%5D%7D&data_digest=xq4MQlWXe0YcPF16JKeBqQ%3D%3D&from_appkey=KEY&from_code=CODE&to_appkey=sto_trace_query&to_code=sto_trace_query"%string)
         (rq :: rest).
Proof.
  pose proof (request_shape 4 (Lab.client Lab.always_retry 2) Lab.query eq_refl)
    as (_ & _ & Hall & Hsent).
  destruct (Hsent Lab.always_retry eq_refl) as (rq & rest & Hr & _);
    [simpl; lia | lia |].
  exists rq, rest. split; [exact Hr |]. rewrite <- Hr.
  vm_compute in Hall. vm_compute. exact Hall.
Defined.

(* ------------------------------------------------------------------ *)
(** ** Backoff *)

Section Backoff.

Import Sto Observe.

Context {RT : Runtime}.

(** While [k] seconds fit a [time.Duration], the code's durations are
    the intended ones. *)
Lemma wbackoff_backoff :
  forall m k,
    0 <= k ->
    k + Z.of_nat m - 2 <= 9223372036 ->
    wbackoff k m = backoff k m.
Proof.
  induction m as [| m IH]; intros k Hk Hb; [reflexivity |].
  destruct m as [| m']; [reflexivity |].
  change (wbackoff k (S (S m')))
    with (Attempt :: Pause (GoInt.mul k Second) :: wbackoff (k + 1) (S m')).
  change (backoff k (S (S m')))
    with (Attempt :: Pause (k * Second) :: backoff (k + 1) (S m')).
  rewrite seconds_small by lia. rewrite IH by lia. reflexivity.
Qed.

(** The pause after attempt [j] is in the timeline when another attempt
    follows. *)
Lemma wbackoff_In :
  forall m k j,
    k <= j ->
    j - k + 2 <= Z.of_nat m ->
    In (Pause (GoInt.mul j Second)) (wbackoff k m).
Proof.
  induction m as [| m IH]; intros k j Hk Hj; [lia |].
  destruct m as [| m']; [lia |].
  change (wbackoff k (S (S m')))
    with (Attempt :: Pause (GoInt.mul k Second) :: wbackoff (k + 1) (S m')).
  right. destruct (Z.eq_dec j k) as [-> | Hne].
  - left. reflexivity.
  - right. apply IH; lia.
Qed.

Lemma backoff_positive :
  forall m k d, 0 < k -> In (Pause d) (backoff k m) -> 0 < d.
Proof.
  induction m as [| m IH]; intros k d Hk Hin; [contradiction |].
  destruct m as [| m'].
  - destruct Hin as [Hin | []]. discriminate.
  - change (backoff k (S (S m')))
      with (Attempt :: Pause (k * Second) :: backoff (k + 1) (S m')) in Hin.
    destruct Hin as [Hin | [Hin | Hin]].
    + discriminate.
    + injection Hin as <-. unfold Second. lia.
    + apply (IH (k + 1) d); [lia | exact Hin].
Qed.

(** C8 (as amended): for a client whose [maxRetries] is at most
    9223372036 (so that every backoff fits a 64-bit duration),
    [QueryTrace] returns and its attempts and sleeps alternate, starting
    and ending with an attempt: the sleep before the [k]-th retry lasts
    exactly [k] seconds, and there is no sleep before the first attempt
    nor after the last. *)
Theorem linear_backoff c req h fuel :
  httpClient c = Some h ->
  maxRetries c <= 9223372036 ->
  (Z.to_nat (maxRetries c) + 1 < fuel)%nat ->
  exists r w,
    QueryTrace fuel c req init_world = Return r w
    /\ timeline (trace w) = backoff 1 (attempts (trace w)).
Proof.
  intros Hh Hn Hf.
  destruct (Validate req) as [msg |] eqn:Hv.
  { rewrite (QueryTrace_invalid fuel c req msg init_world Hv).
    eexists. eexists. split; reflexivity. }
  rewrite (QueryTrace_valid fuel c req Hv).
  destruct (Z.ltb_spec (maxRetries c) 0) as [Hneg | Hpos].
  { destruct fuel as [| fuel]; [lia |]. rewrite retry_exit by lia.
    eexists. eexists. split; reflexivity. }
  destruct (retry_run c h (url_of c req) (content_of req)
              (data_digest (content_of req) (AppSecret c)) Hh
              ltac:(unfold GoInt.MaxInt64; lia)
              (Z.to_nat (maxRetries c) + 1)%nat fuel 0 None None init_world
              ltac:(lia) ltac:(lia) Hf)
    as (w & Hrun & _ & Hreq & Htl).
  cbn [calls trace init_world requests timeline app] in Hrun, Hreq, Htl.
  eexists. exists w. split; [exact Hrun |].
  rewrite (attempts_repeat _ _ _ Hreq), Htl.
  apply wbackoff_backoff; [lia |].
  pose proof (run_length_le h (request_for (url_of c req))
                (Z.to_nat (maxRetries c) + 1) O).
  lia.
Qed.

(** From 9223372037 retries on, the product [(i + 1) * time.Second]
    leaves the range of a duration: the last sleep of a run whose every
    attempt fails is the wrapped value. *)
Lemma backoff_wraps c req h n :
  httpClient c = Some h ->
  maxRetries c = n ->
  1 <= n < GoInt.MaxInt64 ->
  Validate req = None ->
  (forall k rq, clean (attempt_result (h k rq)) = false) ->
  exists fuel r w,
    QueryTrace fuel c req init_world = Return r w
    /\ In (Pause (GoInt.mul n Second)) (timeline (trace w)).
Proof.
  intros Hh Hn Hrange Hv Hd.
  exists (Z.to_nat n + 2)%nat.
  rewrite (QueryTrace_valid _ c req Hv).
  destruct (retry_run c h (url_of c req) (content_of req)
              (data_digest (content_of req) (AppSecret c)) Hh ltac:(lia)
              (Z.to_nat n + 1)%nat (Z.to_nat n + 2)%nat 0 None None init_world
              ltac:(lia) ltac:(lia) ltac:(lia))
    as (w & Hrun & _ & _ & Htl).
  rewrite run_length_dirty in Hrun, Htl by (intros k; apply Hd).
  cbn [calls trace init_world timeline app] in Hrun, Htl.
  eexists. exists w. split; [exact Hrun |].
  rewrite Htl. apply wbackoff_In; lia.
Qed.

End Backoff.

(** Three retries over a failing transport: sleeps of 1, 2 and 3 seconds. *)
Lemma linear_backoff_witness :
  exists r w,
    Sto.QueryTrace 5 (Lab.client Lab.always_fail 3) Lab.query Sto.init_world
      = Sto.Return r w
    /\ Observe.timeline (Sto.trace w)
       = Observe.backoff 1 (Observe.attempts (Sto.trace w)).
Proof.
  apply (linear_backoff (Lab.client Lab.always_fail 3) Lab.query
           Lab.always_fail 5).
  - reflexivity.
  - simpl. lia.
  - simpl. lia.
Defined.

(** C8, counterexample: with [maxRetries = 9223372037] and a transport
    that always fails, the call returns, and the sleep before retry
    number 9223372037 is not 9223372037 seconds but the negative
    duration the 64-bit product wraps to; the timeline is not the
    linear one. *)
Lemma linear_backoff_fails_at_9223372037 :
  exists fuel r w,
    Sto.QueryTrace fuel (Lab.client Lab.always_fail 9223372037) Lab.query
      Sto.init_world = Sto.Return r w
    /\ In (Observe.Pause (-9223372036709551616))
          (Observe.timeline (Sto.trace w))
    /\ Observe.timeline (Sto.trace w)
       <> Observe.backoff 1 (Observe.attempts (Sto.trace w)).
Proof.
  destruct (backoff_wraps (Lab.client Lab.always_fail 9223372037) Lab.query
              Lab.always_fail 9223372037 eq_refl eq_refl)
    as (fuel & r & w & Hrun & Hin).
  - unfold GoInt.MaxInt64. lia.
  - reflexivity.
  - intros k rq. reflexivity.
  - replace (GoInt.mul 9223372037 Sto.Second) with (-9223372036709551616) in Hin
      by (vm_compute; reflexivity).
    exists fuel, r, w. split; [exact Hrun |]. split; [exact Hin |].
    intros Heq. rewrite Heq in Hin.
    apply backoff_positive in Hin; lia.
Qed.

(* ------------------------------------------------------------------ *)
(** ** Lock discipline *)

Section Locks.

Import Sto Observe.

Context {RT : Runtime}.

(** The toggles write the flag under the write lock. *)
Lemma toggles_well_locked c w :
  well_locked (trace w) = true ->
  well_locked (trace (world_of (EnableDebug c w))) = true
  /\ well_locked (trace (world_of (DisableDebug c w))) = true.
Proof.
  intros Hw. unfold well_locked in *.
  assert (Happ : forall tr,
             guarded 0 0 tr = true ->
             guarded 0 0 (((tr ++ [ EvLock ]) ++ [ EvWrite FDebug ])
                            ++ [ EvUnlock ]) = true).
  { intros tr. generalize 0%nat at 1 3 as r. generalize 0%nat as wr.
    induction tr as [| e tr IH]; intros wr r H; [reflexivity |].
    destruct e; cbn [app guarded] in *; auto.
    - apply andb_true_iff in H. destruct H as [H1 H2].
      rewrite H1. cbn [andb]. auto.
    - apply andb_true_iff in H. destruct H as [H1 H2].
      rewrite H1. cbn [andb]. auto. }
  split; cbv [EnableDebug DisableDebug bind emit ret world_of calls trace];
    apply Happ; exact Hw.
Qed.

(** The loop only adds to the trace. *)
Lemma retry_extends c h url content dd :
  httpClient c = Some h ->
  forall fuel i resp err w,
    exists tl,
      trace (world_of (retry fuel c url content dd i resp err w))
      = trace w ++ tl.
Proof.
  intros Hh. induction fuel as [| fuel IH]; intros i resp err w.
  - exists []. cbn [retry out_of_fuel world_of]. rewrite app_nil_r. reflexivity.
  - destruct (Z.leb_spec i (maxRetries c)) as [Hi | Hi].
    + rewrite (retry_step fuel c h url content dd i resp err w Hh Hi).
      destruct (clean _).
      * eexists. cbn [world_of trace]. reflexivity.
      * match goal with
        | |- context [retry fuel c url content dd ?i' ?r ?e ?w2] =>
            destruct (IH i' r e w2) as [tl Htl]
        end.
        rewrite Htl. cbn [calls trace]. rewrite <- !app_assoc.
        eexists. reflexivity.
    + exists []. rewrite retry_exit by lia. cbn [world_of].
      rewrite app_nil_r. reflexivity.
Qed.

(** C10 does not hold of the code: whenever [QueryTrace] makes an
    attempt, the first thing it does is read [c.Debug] with no lock
    held (client.go line 228), so the trace of the call breaks the lock
    discipline that [EnableDebug] and [DisableDebug] follow. *)
Theorem debug_read_outside_lock c req h fuel :
  httpClient c = Some h ->
  0 <= maxRetries c ->
  Validate req = None ->
  (0 < fuel)%nat ->
  hd_error (trace (world_of (QueryTrace fuel c req init_world)))
    = Some (EvRead FDebug)
  /\ well_locked (trace (world_of (QueryTrace fuel c req init_world))) = false.
Proof.
  intros Hh Hn Hv Hf. destruct fuel as [| fuel]; [lia |].
  rewrite (QueryTrace_valid _ c req Hv).
  assert (Hhead : exists tl,
             trace (world_of
                      (retry (S fuel) c (url_of c req) (content_of req)
                         (data_digest (content_of req) (AppSecret c))
                         0 None None init_world))
             = EvRead FDebug :: tl).
  { rewrite (retry_step fuel c h _ _ _ 0 None None init_world Hh Hn).
    destruct (clean _).
    - cbn [world_of trace init_world app banner_events Z.ltb Z.compare].
      unfold request_events. eexists. reflexivity.
    - match goal with
      | |- context [retry fuel c ?u ?ct ?d ?i' ?r ?e ?w2] =>
          destruct (retry_extends c h u ct d Hh fuel i' r e w2) as [tl Htl]
      end.
      rewrite Htl.
      cbn [calls trace init_world app banner_events Z.ltb Z.compare].
      unfold request_events. eexists. reflexivity. }
  destruct Hhead as [tl ->]. split; reflexivity.
Qed.

End Locks.

(** The unguarded read on a run of the laboratory client. *)
Lemma debug_read_outside_lock_witness :
  hd_error
    (Sto.trace
       (Sto.world_of
          (Sto.QueryTrace 2 (Lab.client Lab.retry_then_ok 3) Lab.query
             Sto.init_world)))
  = Some (Sto.EvRead Sto.FDebug)
  /\ Observe.well_locked
       (Sto.trace
          (Sto.world_of
             (Sto.QueryTrace 2 (Lab.client Lab.retry_then_ok 3) Lab.query
                Sto.init_world)))
     = false.
Proof.
  apply (debug_read_outside_lock (Lab.client Lab.retry_then_ok 3) Lab.query
           Lab.retry_then_ok 2).
  - reflexivity.
  - simpl. lia.
  - reflexivity.
  - lia.
Defined.

(* ------------------------------------------------------------------ *)
(** ** The signature *)

Section Signature.

Import Sto.

(** Decoding a digit gives its value back, so the 64 digits are
    distinct; and none of them is the padding character. *)
Lemma value_digit (u : Z) : 0 <= u < 64 -> Base64.value (Base64.digit u) = u.
Proof.
  intros Hu.
  assert (H : forallb (fun n => Base64.value (Base64.digit (Z.of_nat n))
                                 =? Z.of_nat n) (seq 0 64) = true)
    by (vm_compute; reflexivity).
  rewrite forallb_forall in H. specialize (H (Z.to_nat u)).
  rewrite Z2Nat.id in H by lia. apply Z.eqb_eq, H, in_seq. lia.
Qed.

Lemma digit_inj (u v : Z) :
  0 <= u < 64 -> 0 <= v < 64 -> Base64.digit u = Base64.digit v -> u = v.
Proof.
  intros Hu Hv H. rewrite <- (value_digit u Hu), <- (value_digit v Hv), H.
  reflexivity.
Qed.

Lemma digit_not_pad (u : Z) : 0 <= u < 64 -> Base64.digit u <> "="%char.
Proof.
  intros Hu Heq.
  assert (H : forallb (fun n => negb (Ascii.eqb (Base64.digit (Z.of_nat n))
                                                "="%char)) (seq 0 64) = true)
    by (vm_compute; reflexivity).
  rewrite forallb_forall in H. specialize (H (Z.to_nat u)).
  rewrite Z2Nat.id in H by lia. rewrite Heq in H.
  assert (Hin : In (Z.to_nat u) (seq 0 64)) by (apply in_seq; lia).
  apply H in Hin. rewrite Ascii.eqb_refl in Hin. discriminate.
Qed.

Ltac digits :=
  repeat match goal with
         | H : Base64.digit _ = Base64.digit _ |- _ =>
             apply digit_inj in H;
             [| Z.div_mod_to_equations; lia
              | Z.div_mod_to_equations; lia ]
         end.

(** Base64 encoding loses nothing. *)
Lemma encode_inj :
  forall n a b,
    (List.length a <= n)%nat ->
    Forall Bytes.is_byte a -> Forall Bytes.is_byte b ->
    Base64.encode a = Base64.encode b -> a = b.
Proof.
  unfold Bytes.is_byte.
  induction n as [| n IH]; intros a b Hn Ha Hb H.
  - destruct a; [| simpl in Hn; lia].
    destruct b as [| x [| y [| z b]]]; [reflexivity | discriminate ..].
  - destruct a as [| x [| y [| z a]]].
    + destruct b as [| x' [| y' [| z' b]]]; [reflexivity | discriminate ..].
    + inversion Ha as [| ? ? Hx _]; subst.
      destruct b as [| x' [| y' [| z' b]]]; cbn [Base64.encode] in H.
      * discriminate.
      * inversion Hb as [| ? ? Hx' _]; subst.
        injection H as H0 H1. digits.
        f_equal. Z.div_mod_to_equations; lia.
      * inversion Hb as [| ? ? Hx' Hb']; subst.
        inversion Hb' as [| ? ? Hy' _]; subst.
        injection H as _ _ H2. symmetry in H2.
        apply digit_not_pad in H2; [contradiction |].
        Z.div_mod_to_equations; lia.
      * inversion Hb as [| ? ? Hx' Hb']; subst.
        inversion Hb' as [| ? ? Hy' Hb'']; subst.
        inversion Hb'' as [| ? ? Hz' _]; subst.
        injection H as _ _ H2 _. symmetry in H2.
        apply digit_not_pad in H2; [contradiction |].
        Z.div_mod_to_equations; lia.
    + inversion Ha as [| ? ? Hx Ha']; subst.
      inversion Ha' as [| ? ? Hy _]; subst.
      destruct b as [| x' [| y' [| z' b]]]; cbn [Base64.encode] in H.
      * discriminate.
      * inversion Hb as [| ? ? Hx' _]; subst.
        injection H as _ _ H2.
        apply digit_not_pad in H2; [contradiction |].
        Z.div_mod_to_equations; lia.
      * inversion Hb as [| ? ? Hx' Hb']; subst.
        inversion Hb' as [| ? ? Hy' _]; subst.
        injection H as H0 H1 H2. digits.
        assert (x = x' /\ y = y') as [-> ->]; [| reflexivity].
        Z.div_mod_to_equations; lia.
      * inversion Hb as [| ? ? Hx' Hb']; subst.
        inversion Hb' as [| ? ? Hy' Hb'']; subst.
        inversion Hb'' as [| ? ? Hz' _]; subst.
        injection H as _ _ _ H3 _. symmetry in H3.
        apply digit_not_pad in H3; [contradiction |].
        Z.div_mod_to_equations; lia.
    + inversion Ha as [| ? ? Hx Ha']; subst.
      inversion Ha' as [| ? ? Hy Ha'']; subst.
      inversion Ha'' as [| ? ? Hz Hrest]; subst.
      destruct b as [| x' [| y' [| z' b]]]; cbn [Base64.encode] in H.
      * discriminate.
      * inversion Hb as [| ? ? Hx' _]; subst.
        injection H as _ _ H2 _.
        apply digit_not_pad in H2; [contradiction |].
        Z.div_mod_to_equations; lia.
      * inversion Hb as [| ? ? Hx' Hb']; subst.
        inversion Hb' as [| ? ? Hy' _]; subst.
        injection H as _ _ _ H3 _.
        apply digit_not_pad in H3; [contradiction |].
        Z.div_mod_to_equations; lia.
      * inversion Hb as [| ? ? Hx' Hb']; subst.
        inversion Hb' as [| ? ? Hy' Hb'']; subst.
        inversion Hb'' as [| ? ? Hz' Hrest']; subst.
        injection H as H0 H1 H2 H3 Hr. digits.
        assert (x = x' /\ y = y' /\ z = z') as (-> & -> & ->).
        { Z.div_mod_to_equations; lia. }
        f_equal. f_equal. f_equal.
        apply (IH a b); try assumption. simpl in Hn. lia.
Qed.

Lemma EncodeToString_inj (a b : list Z) :
  Forall Bytes.is_byte a -> Forall Bytes.is_byte b ->
  Base64.EncodeToString a = Base64.EncodeToString b -> a = b.
Proof.
  intros Ha Hb H. unfold Base64.EncodeToString in H.
  apply (f_equal list_ascii_of_string) in H.
  rewrite !list_ascii_of_string_of_list_ascii in H.
  apply (encode_inj (List.length a) a b); auto.
Qed.

Lemma word_bytes_are_bytes (w : Z) : Forall Bytes.is_byte (MD5.word_bytes w).
Proof.
  unfold MD5.word_bytes, Bytes.is_byte.
  repeat constructor; apply Z.mod_pos_bound; lia.
Qed.

Lemma Sum_bytes (msg : list Z) : Forall Bytes.is_byte (MD5.Sum msg).
Proof.
  unfold MD5.Sum. repeat (apply Forall_app; split);
    apply word_bytes_are_bytes.
Qed.

(** X16: the digest is the base64 text of the MD5 sum of content
    followed by secret, and two digests are equal exactly when the two
    sums are: the base64 step loses nothing. *)
Lemma data_digest_equal_iff (content secret content' secret' : string) :
  data_digest content secret = data_digest content' secret'
  <-> MD5.Sum (Bytes.of_string (content ++ secret))
      = MD5.Sum (Bytes.of_string (content' ++ secret')).
Proof.
  unfold data_digest. split.
  - apply EncodeToString_inj; apply Sum_bytes.
  - intros ->. reflexivity.
Qed.

End Signature.

(* ------------------------------------------------------------------ *)
(** ** Construction *)

Section Construction.

Import Sto Observe.

Context {RT : Runtime}.

Lemma fold_settings (l : list Setting) :
  forall c,
    let c' := fold_left (fun c opt => opt c) (map option_of l) c in
    AppKey c' = AppKey c /\ AppSecret c' = AppSecret c
    /\ FromCode c' = FromCode c /\ Debug c' = Debug c
    /\ timeout c' = last_timeout l (timeout c)
    /\ maxRetries c' = last_retries l (maxRetries c)
    /\ httpClient c' = last_client l (httpClient c).
Proof.
  induction l as [| s l IH]; intros c; cbn [map fold_left].
  - cbn. repeat split.
  - specialize (IH (option_of s c)). cbn zeta in IH.
    destruct IH as (H1 & H2 & H3 & H4 & H5 & H6 & H7).
    cbn zeta. rewrite H1, H2, H3, H4, H5, H6, H7.
    destruct s; cbn; repeat split.
Qed.

(** X1: [NewClient] with options built by [WithTimeout],
    [WithMaxRetries] and [WithHTTPClient]: the credentials are the ones
    given and debugging is off; of several options of a kind the last
    one counts, and without one the defaults are 30 seconds and 3
    retries; the transport is the last client given if that is not nil,
    and otherwise the default client made with the timeout in force, so
    that a timeout option has no effect on a client that was passed
    in. *)
Theorem NewClient_settings (appKey appSecret fromCode : string)
    (l : list Setting) :
  let c := NewClient appKey appSecret fromCode (map option_of l) in
  AppKey c = appKey /\ AppSecret c = appSecret /\ FromCode c = fromCode
  /\ Debug c = false
  /\ timeout c = last_timeout l (30 * Second)
  /\ maxRetries c = last_retries l 3
  /\ httpClient c
     = Some (match last_client l None with
             | Some h => h
             | None => DefaultTransport (last_timeout l (30 * Second))
             end).
Proof.
  cbn zeta. unfold NewClient.
  pose proof (fold_settings l (mkClient appKey appSecret fromCode false None
                                 DefaultTimeout DefaultMaxRetries)) as H.
  cbn zeta in H.
  cbn [AppKey AppSecret FromCode Debug timeout maxRetries httpClient] in H.
  unfold DefaultTimeout, DefaultMaxRetries in *.
  set (c0 := fold_left _ _ _) in *.
  destruct H as (H1 & H2 & H3 & H4 & H5 & H6 & H7).
  rewrite <- H5, <- H6, <- H7.
  destruct (httpClient c0) as [h |] eqn:Hh.
  - rewrite Hh. repeat split; assumption.
  - unfold WithHTTPClient.
    cbn [AppKey AppSecret FromCode Debug timeout maxRetries httpClient].
    repeat split; assumption.
Qed.




(** X3: a client without transport (a [Client] struct filled in by hand)
    that allows at least one attempt panics on a valid request with a
    nil-pointer dereference, before any exchange took place. *)
Theorem nil_transport_panics c req fuel w :
  httpClient c = None ->
  0 <= maxRetries c ->
  Validate req = None ->
  (0 < fuel)%nat ->
  exists w',
    QueryTrace fuel c req w
    = Panic "invalid memory address or nil pointer dereference" w'
    /\ requests (trace w') = requests (trace w)
    /\ calls w' = calls w.
Proof.
  intros Hh Hn Hv Hf. destruct fuel as [| fuel]; [lia |].
  rewrite (QueryTrace_valid _ c req Hv), retry_S.
  destruct (Z.leb_spec 0 (maxRetries c)) as [_ | ?]; [| lia].
  unfold bind at 1. rewrite banner_run. unfold bind at 1.
  unfold doRequest, http_NewRequest. rewrite Hh. destruct w as [k tr].
  destruct (Debug c); cbv [bind when emit Printf Do ret panic calls trace];
    eexists; (split; [reflexivity |]); cbn [calls trace];
    rewrite !requests_app, requests_banner_events; cbn [requests];
    rewrite !app_nil_r; split; reflexivity.
Qed.

End Construction.

(** A client written as a struct literal, with no transport. *)
Lemma nil_transport_panics_witness :
  exists w',
    Sto.QueryTrace 1 (Sto.mkClient "KEY" "SECRET" "CODE" false None 0 0)
      Lab.query Sto.init_world
    = Sto.Panic "invalid memory address or nil pointer dereference" w'
    /\ Observe.requests (Sto.trace w') = Observe.requests (Sto.trace Sto.init_world)
    /\ Sto.calls w' = Sto.calls Sto.init_world.
Proof.
  apply (nil_transport_panics
           (Sto.mkClient "KEY" "SECRET" "CODE" false None 0 0)
           Lab.query 1 Sto.init_world).
  - reflexivity.
  - simpl. lia.
  - reflexivity.
  - lia.
Defined.

(* ------------------------------------------------------------------ *)
(** ** What a call costs and what it returns *)

Section Budget.

Import Sto Observe.

Context {RT : Runtime}.

Lemma run_length_pos h rq k m : (0 < m)%nat -> (0 < run_length h rq k m)%nat.
Proof.
  destruct m; [lia |]. intros _. simpl. destruct (clean _); lia.
Qed.

(** A valid query on a client that cannot overflow its counter: the
    call returns, and its trace is [run_length] attempts under the
    backoff the code computes. *)
Lemma QueryTrace_run c req h fuel :
  httpClient c = Some h ->
  0 <= maxRetries c < GoInt.MaxInt64 ->
  Validate req = None ->
  (Z.to_nat (maxRetries c) + 1 < fuel)%nat ->
  let len := run_length h (request_of c req) 0
               (Z.to_nat (maxRetries c) + 1) in
  exists w,
    QueryTrace fuel c req init_world
    = Return (final_result h (request_of c req) (None, None) 0 len) w
    /\ attempts (trace w) = len
    /\ timeline (trace w) = wbackoff 1 len.
Proof.
  intros Hh Hn Hv Hf len.
  rewrite (QueryTrace_valid fuel c req Hv).
  destruct (retry_run c h (url_of c req) (content_of req)
              (data_digest (content_of req) (AppSecret c)) Hh ltac:(lia)
              (Z.to_nat (maxRetries c) + 1)%nat fuel 0 None None init_world
              ltac:(lia) ltac:(lia) Hf)
    as (w & Hrun & _ & Hreq & Htl).
  cbn [calls trace init_world requests timeline app] in Hrun, Hreq, Htl.
  exists w. split; [exact Hrun |]. split; [| exact Htl].
  apply (attempts_repeat _ _ _ Hreq).
Qed.

(** X4: on a valid query, a client with a transport and
    [0 <= maxRetries < 2^63 - 1] always returns, after at least one and
    at most [maxRetries + 1] attempts; what it returns is what its last
    attempt produced, and of the response and the error exactly one is
    nil. *)
Theorem bounded_attempts c req h fuel :
  httpClient c = Some h ->
  0 <= maxRetries c < GoInt.MaxInt64 ->
  Validate req = None ->
  (Z.to_nat (maxRetries c) + 1 < fuel)%nat ->
  exists r w,
    QueryTrace fuel c req init_world = Return r w
    /\ (1 <= attempts (trace w) <= Z.to_nat (maxRetries c) + 1)%nat
    /\ r = attempt_result
             (h (attempts (trace w) - 1)%nat (request_of c req))
    /\ ((exists rsp, r = (Some rsp, None))
        \/ (exists msg, r = (None, Some msg))).
Proof.
  intros Hh Hn Hv Hf.
  destruct (QueryTrace_run c req h fuel Hh Hn Hv Hf) as (w & Hrun & Hatt & _).
  pose proof (run_length_pos h (request_of c req) 0
                (Z.to_nat (maxRetries c) + 1) ltac:(lia)) as Hpos.
  pose proof (run_length_le h (request_of c req)
                (Z.to_nat (maxRetries c) + 1) 0) as Hle.
  eexists. exists w. split; [exact Hrun |]. rewrite Hatt.
  split; [lia |].
  destruct (run_length h (request_of c req) 0 (Z.to_nat (maxRetries c) + 1))
    as [| len'] eqn:Hlen; [lia |].
  cbn [final_result Nat.add].
  replace (S len' - 1)%nat with len' by lia.
  split; [reflexivity | apply attempt_result_shape].
Qed.

(** X5: when every attempt ends in an error, of whatever kind, the
    client with [maxRetries = n], [0 <= n < 2^63 - 1], makes exactly
    [n + 1] attempts on a valid query and returns the nil response with
    the error of the last attempt. *)
Theorem failures_exhaust_retries c req h n fuel :
  httpClient c = Some h ->
  maxRetries c = n ->
  0 <= n < GoInt.MaxInt64 ->
  Validate req = None ->
  (forall k, exists msg,
      attempt_result (h k (request_of c req)) = (None, Some msg)) ->
  (Z.to_nat n + 1 < fuel)%nat ->
  exists w msg,
    QueryTrace fuel c req init_world = Return (None, Some msg) w
    /\ attempt_result (h (Z.to_nat n) (request_of c req)) = (None, Some msg)
    /\ attempts (trace w) = (Z.to_nat n + 1)%nat.
Proof.
  intros Hh Hn Hrange Hv Hall Hf. subst n.
  destruct (QueryTrace_run c req h fuel Hh Hrange Hv Hf) as (w & Hrun & Hatt & _).
  rewrite run_length_dirty in Hrun, Hatt
    by (intros k; destruct (Hall k) as [msg ->]; reflexivity).
  rewrite Nat.add_1_r in Hrun. cbn [final_result Nat.add] in Hrun.
  destruct (Hall (Z.to_nat (maxRetries c))) as [msg Hmsg].
  exists w, msg. rewrite Hmsg in Hrun. auto.
Qed.

Lemma total_pause_backoff :
  forall m k,
    2 * total_pause (backoff k (S m))
    = Z.of_nat m * (2 * k + Z.of_nat m - 1) * Second.
Proof.
  induction m as [| m IH]; intros k; [reflexivity |].
  change (backoff k (S (S m)))
    with (Attempt :: Pause (k * Second) :: backoff (k + 1) (S m)).
  cbn [total_pause]. rewrite Z.mul_add_distr_l, IH. nia.
Qed.

(** X6: for a client with a transport and [0 <= maxRetries <=
    9223372036], a call on a valid query that made [a] attempts slept
    [1 + 2 + ... + (a - 1)] seconds in all, that is [a (a - 1) / 2]
    seconds: at most 6 seconds with the default of 3 retries. *)
Theorem total_sleep_triangular c req h fuel :
  httpClient c = Some h ->
  0 <= maxRetries c <= 9223372036 ->
  Validate req = None ->
  (Z.to_nat (maxRetries c) + 1 < fuel)%nat ->
  exists r w,
    QueryTrace fuel c req init_world = Return r w
    /\ 2 * total_sleep (trace w)
       = Z.of_nat (attempts (trace w)) * (Z.of_nat (attempts (trace w)) - 1)
         * Second
    /\ 2 * total_sleep (trace w)
       <= (maxRetries c + 1) * maxRetries c * Second.
Proof.
  intros Hh Hn Hv Hf.
  destruct (QueryTrace_run c req h fuel Hh
              ltac:(unfold GoInt.MaxInt64; lia) Hv Hf)
    as (w & Hrun & Hatt & Htl).
  pose proof (run_length_pos h (request_of c req) 0
                (Z.to_nat (maxRetries c) + 1) ltac:(lia)) as Hpos.
  pose proof (run_length_le h (request_of c req)
                (Z.to_nat (maxRetries c) + 1) 0) as Hle.
  eexists. exists w. split; [exact Hrun |].
  unfold total_sleep. rewrite Htl, Hatt.
  rewrite wbackoff_backoff by lia.
  destruct (run_length h (request_of c req) 0 (Z.to_nat (maxRetries c) + 1))
    as [| m] eqn:Hlen; [lia |].
  rewrite total_pause_backoff. unfold Second. split; nia.
Qed.

(** X7: a first attempt that is answered with status 200 and a body
    that decodes to a response without retry hint ends the call: one
    attempt, no sleep, the response returned with the nil error,
    whatever its [success] field says.  A failure the vendor reports in
    the response is not an error of [QueryTrace] and is not retried. *)
Theorem answered_once c req h fuel body rsp :
  httpClient c = Some h ->
  0 <= maxRetries c ->
  Validate req = None ->
  h O (request_of c req) = Received 200 body ->
  Unmarshal body = Ok rsp ->
  ShouldRetry rsp = false ->
  (0 < fuel)%nat ->
  exists w,
    QueryTrace fuel c req init_world = Return (Some rsp, None) w
    /\ timeline (trace w) = [ Attempt ].
Proof.
  intros Hh Hn Hv Hx Hu Hs Hf. destruct fuel as [| fuel]; [lia |].
  rewrite (QueryTrace_valid _ c req Hv).
  rewrite (retry_step fuel c h _ _ _ 0 None None init_world Hh Hn).
  cbn [calls init_world]. unfold request_of in Hx. rewrite Hx.
  cbn [attempt_result Z.eqb Pos.eqb]. rewrite Hu. cbn [clean]. rewrite Hs.
  cbn [negb]. eexists. split; [reflexivity |]. cbn [trace init_world app].
  rewrite !timeline_app, timeline_banner_events, timeline_request_events,
    timeline_response_events.
  reflexivity.
Qed.

End Budget.

(** A call that uses up the default budget. *)
Lemma bounded_attempts_witness :
  exists r w,
    Sto.QueryTrace 5 (Lab.client Lab.always_fail 3) Lab.query Sto.init_world
    = Sto.Return r w
    /\ (1 <= Observe.attempts (Sto.trace w) <= 4)%nat.
Proof.
  destruct (bounded_attempts (Lab.client Lab.always_fail 3) Lab.query
              Lab.always_fail 5 eq_refl)
    as (r & w & Hrun & Hb & _).
  - unfold GoInt.MaxInt64. simpl. lia.
  - reflexivity.
  - simpl. lia.
  - exists r, w. split; [exact Hrun | exact Hb].
Defined.

(** Connection refused four times over. *)
Lemma failures_exhaust_retries_witness :
  exists w msg,
    Sto.QueryTrace 5 (Lab.client Lab.always_fail 3) Lab.query Sto.init_world
    = Sto.Return (None, Some msg) w
    /\ Observe.attempt_result
         (Lab.always_fail (Z.to_nat 3)
            (Observe.request_of (Lab.client Lab.always_fail 3) Lab.query))
       = (None, Some msg)
    /\ Observe.attempts (Sto.trace w) = (Z.to_nat 3 + 1)%nat.
Proof.
  apply (failures_exhaust_retries (Lab.client Lab.always_fail 3) Lab.query
           Lab.always_fail 3 5).
  - reflexivity.
  - reflexivity.
  - unfold GoInt.MaxInt64. lia.
  - reflexivity.
  - intros k. eexists. reflexivity.
  - simpl. lia.
Defined.

(** Three retries: six seconds of sleep. *)
Lemma total_sleep_triangular_witness :
  exists r w,
    Sto.QueryTrace 5 (Lab.client Lab.always_fail 3) Lab.query Sto.init_world
    = Sto.Return r w
    /\ 2 * Observe.total_sleep (Sto.trace w) <= (3 + 1) * 3 * Sto.Second.
Proof.
  destruct (total_sleep_triangular (Lab.client Lab.always_fail 3) Lab.query
              Lab.always_fail 5 eq_refl)
    as (r & w & Hrun & _ & Hb).
  - simpl. lia.
  - reflexivity.
  - simpl. lia.
  - exists r, w. split; [exact Hrun | exact Hb].
Defined.

(** A business failure answered at once: returned, not retried. *)
Lemma answered_once_witness :
  exists w,
    Sto.QueryTrace 1
      (Lab.client (fun _ _ => Sto.Received 200 "{}") 3) Lab.query
      Sto.init_world
    = Sto.Return (Some Lab.blank_response, None) w
    /\ Observe.timeline (Sto.trace w) = [ Observe.Attempt ].
Proof.
  apply (answered_once (Lab.client (fun _ _ => Sto.Received 200 "{}") 3)
           Lab.query (fun _ _ => Sto.Received 200 "{}") 1 "{}"
           Lab.blank_response).
  - reflexivity.
  - simpl. lia.
  - reflexivity.
  - reflexivity.
  - reflexivity.
  - reflexivity.
  - lia.
Defined.

(* ------------------------------------------------------------------ *)
(** ** Debugging output and locks during a call *)

Section Quiet.

Import Sto Observe.

Context {RT : Runtime}.

(** What holds of a trace and survives the events of an attempt and of
    a sleep holds of the trace of the loop, however the loop ends. *)
Lemma retry_trace_segments c h url content dd (P : list event -> Prop) :
  httpClient c = Some h ->
  (forall tr i x,
      P tr ->
      P (tr ++ banner_events c i ++ request_events c url content dd
            ++ response_events c x)) ->
  (forall tr i, P tr -> P (tr ++ sleep_events c i)) ->
  forall fuel i resp err w,
    P (trace w) ->
    P (trace (world_of (retry fuel c url content dd i resp err w))).
Proof.
  intros Hh Hatt Hsl. induction fuel as [| fuel IH]; intros i resp err w Hw.
  - exact Hw.
  - destruct (Z.leb_spec i (maxRetries c)) as [Hi | Hi].
    + rewrite (retry_step fuel c h url content dd i resp err w Hh Hi).
      destruct (clean _).
      * cbn [world_of trace]. apply Hatt, Hw.
      * apply IH. cbn [trace calls]. apply Hsl, Hatt, Hw.
    + rewrite retry_exit by lia. exact Hw.
Qed.

Lemma QueryTrace_trace_segments c h req (P : list event -> Prop) :
  httpClient c = Some h ->
  P [] ->
  (forall tr i x,
      P tr ->
      P (tr ++ banner_events c i
            ++ request_events c (url_of c req) (content_of req)
                 (data_digest (content_of req) (AppSecret c))
            ++ response_events c x)) ->
  (forall tr i, P tr -> P (tr ++ sleep_events c i)) ->
  forall fuel, P (trace (world_of (QueryTrace fuel c req init_world))).
Proof.
  intros Hh Hnil Hatt Hsl fuel.
  destruct (Validate req) as [msg |] eqn:Hv.
  - rewrite (QueryTrace_invalid fuel c req msg init_world Hv). exact Hnil.
  - rewrite (QueryTrace_valid fuel c req Hv).
    apply (retry_trace_segments c h); auto.
Qed.

Lemma printed_app (a b : list event) :
  printed (a ++ b) = printed a ++ printed b.
Proof.
  induction a as [| e a IH]; simpl; [reflexivity |].
  destruct e; simpl; rewrite IH; reflexivity.
Qed.

(** X8: while debugging is off, [QueryTrace] prints nothing, however
    many attempts it makes and however it ends. *)
Theorem no_output_without_debug c h req fuel :
  httpClient c = Some h ->
  Debug c = false ->
  printed (trace (world_of (QueryTrace fuel c req init_world))) = [].
Proof.
  intros Hh Hd.
  apply (QueryTrace_trace_segments c h req (fun tr => printed tr = []) Hh).
  - reflexivity.
  - intros tr i x Htr. rewrite !printed_app, Htr.
    unfold banner_events, request_events, response_events. rewrite Hd.
    destruct (0 <? i), x; reflexivity.
  - intros tr i Htr. rewrite printed_app, Htr.
    unfold sleep_events. destruct (i <? maxRetries c); reflexivity.
Qed.

Lemma silent_app (a b : list event) :
  silent (a ++ b) = silent a ++ silent b.
Proof.
  induction a as [| e a IH]; simpl; [reflexivity |].
  destruct e; simpl; rewrite IH; reflexivity.
Qed.

Lemma silent_attempt c i url content dd x :
  silent (banner_events c i ++ request_events c url content dd
            ++ response_events c x)
  = (if 0 <? i then [ EvRead FDebug ] else [])
      ++ [ EvRead FDebug; EvRLock; EvRead FHttpClient; EvRead FDebug;
           EvRUnlock; EvDo (request_for url) ].
Proof.
  rewrite !silent_app.
  unfold banner_events, request_events, response_events.
  destruct (0 <? i), (Debug c), x; reflexivity.
Qed.

(** Two clients that differ in the debug flag only run the loop alike,
    prints aside. *)
Lemma retry_mute c c' h url content dd :
  httpClient c = Some h ->
  httpClient c' = Some h ->
  maxRetries c' = maxRetries c ->
  forall fuel i resp err w w',
    calls w = calls w' ->
    silent (trace w) = silent (trace w') ->
    mute (retry fuel c url content dd i resp err w)
    = mute (retry fuel c' url content dd i resp err w').
Proof.
  intros Hh Hh' Hn.
  induction fuel as [| fuel IH]; intros i resp err w w' Hc Hs.
  - cbn [retry out_of_fuel mute]. rewrite Hc, Hs. reflexivity.
  - destruct (Z.leb_spec i (maxRetries c)) as [Hi | Hi].
    + rewrite (retry_step fuel c h url content dd i resp err w Hh Hi).
      rewrite (retry_step fuel c' h url content dd i resp err w' Hh')
        by (rewrite Hn; exact Hi).
      rewrite <- Hc. destruct (clean _).
      * cbn [mute calls trace].
        rewrite (silent_app (trace w)), (silent_app (trace w')),
          !silent_attempt, Hs.
        reflexivity.
      * apply IH; cbn [calls trace]; [reflexivity |].
        rewrite (silent_app (trace w ++ _)), (silent_app (trace w' ++ _)),
          (silent_app (trace w)), (silent_app (trace w')),
          !silent_attempt, Hs.
        unfold sleep_events. rewrite Hn. reflexivity.
    + rewrite !retry_exit by (rewrite ?Hn; lia).
      cbn [mute]. rewrite Hc, Hs. reflexivity.
Qed.

(** X9: switching debugging on or off changes nothing but the output:
    the client that [EnableDebug] or [DisableDebug] hands back makes
    [QueryTrace] return the same value after the same exchanges, sleeps
    and lock operations as the client it was made from. *)
Theorem debug_changes_output_only c h req fuel w c1 w1 :
  httpClient c = Some h ->
  EnableDebug c w = Return c1 w1 \/ DisableDebug c w = Return c1 w1 ->
  mute (QueryTrace fuel c1 req init_world)
  = mute (QueryTrace fuel c req init_world).
Proof.
  intros Hh Htoggle.
  assert (Hc1 : exists b, c1 = set_Debug b c).
  { destruct Htoggle as [H | H];
      cbv [EnableDebug DisableDebug bind emit ret] in H;
      injection H as <- _; eauto. }
  destruct Hc1 as [b ->].
  destruct (Validate req) as [msg |] eqn:Hv.
  - rewrite !(QueryTrace_invalid fuel _ req msg init_world Hv). reflexivity.
  - rewrite !(QueryTrace_valid fuel _ req Hv).
    apply (retry_mute (set_Debug b c) c h); auto.
Qed.

(** X10: every request that [QueryTrace] sends carries one header, the
    User-Agent of the Googlebot crawler, and nothing else. *)
Theorem user_agent_header fuel c req :
  Forall
    (fun rq =>
       Header rq
       = [ ("User-Agent"%string,
            "Mozilla/5.0 (compatible; Googlebot/2.1; +http://www.google.com/bot.html)"%string) ])
    (requests (trace (world_of (QueryTrace fuel c req init_world)))).
Proof.
  eapply Forall_impl; [| apply QueryTrace_requests].
  intros rq ->. reflexivity.
Qed.

Lemma locks_after_app (a b : list event) :
  forall r w,
    locks_after r w (a ++ b)
    = locks_after (fst (locks_after r w a)) (snd (locks_after r w a)) b.
Proof.
  induction a as [| e a IH]; intros r w; [reflexivity |].
  destruct e; cbn [app locks_after]; apply IH.
Qed.

Lemma blocks_unlocked_app (a b : list event) :
  forall r w,
    blocks_unlocked r w (a ++ b)
    = blocks_unlocked r w a
      && blocks_unlocked (fst (locks_after r w a)) (snd (locks_after r w a)) b.
Proof.
  induction a as [| e a IH]; intros r w; [reflexivity |].
  destruct e; cbn [app blocks_unlocked locks_after]; rewrite ?IH;
    try reflexivity; rewrite <- !andb_assoc; reflexivity.
Qed.

(** X11: [QueryTrace] holds no lock of the client while it waits: every
    exchange and every sleep happens with the read lock released, so a
    call never keeps [EnableDebug] or [DisableDebug] waiting for the
    network; and when the call ends no lock is left held. *)
Theorem no_lock_while_waiting c h req fuel :
  httpClient c = Some h ->
  blocks_unlocked 0 0 (trace (world_of (QueryTrace fuel c req init_world)))
  = true
  /\ locks_after 0 0 (trace (world_of (QueryTrace fuel c req init_world)))
     = (0%nat, 0%nat).
Proof.
  intros Hh.
  apply (QueryTrace_trace_segments c h req
           (fun tr => blocks_unlocked 0 0 tr = true
                      /\ locks_after 0 0 tr = (0%nat, 0%nat)) Hh).
  - split; reflexivity.
  - intros tr i x [Hb Hl].
    rewrite blocks_unlocked_app, locks_after_app, Hb, Hl. cbn [fst snd andb].
    unfold banner_events, request_events, response_events.
    destruct (0 <? i), (Debug c), x; split; reflexivity.
  - intros tr i [Hb Hl].
    rewrite blocks_unlocked_app, locks_after_app, Hb, Hl. cbn [fst snd andb].
    unfold sleep_events. destruct (i <? maxRetries c); split; reflexivity.
Qed.

Lemma guarded_app (a b : list event) :
  forall r w,
    guarded r w (a ++ b)
    = guarded r w a
      && guarded (fst (locks_after r w a)) (snd (locks_after r w a)) b.
Proof.
  induction a as [| e a IH]; intros r w; [reflexivity |].
  destruct e; cbn [app guarded locks_after]; rewrite ?IH;
    try reflexivity; rewrite <- !andb_assoc; reflexivity.
Qed.

(** X12: [EnableDebug] and [DisableDebug], called after any history
    that kept the lock discipline, keep it: the flag is written under
    the write lock and the lock is released again; and the client that
    comes back is the client given with the debug flag set to true,
    respectively false, every other field as it was. *)
Theorem toggles_keep_discipline c w :
  well_locked (trace w) = true ->
  exists c1 w1 c2 w2,
    EnableDebug c w = Return c1 w1
    /\ DisableDebug c w = Return c2 w2
    /\ Debug c1 = true /\ Debug c2 = false
    /\ (AppKey c1 = AppKey c /\ AppSecret c1 = AppSecret c
        /\ FromCode c1 = FromCode c /\ httpClient c1 = httpClient c
        /\ timeout c1 = timeout c /\ maxRetries c1 = maxRetries c)
    /\ (AppKey c2 = AppKey c /\ AppSecret c2 = AppSecret c
        /\ FromCode c2 = FromCode c /\ httpClient c2 = httpClient c
        /\ timeout c2 = timeout c /\ maxRetries c2 = maxRetries c)
    /\ trace w1 = trace w ++ [ EvLock; EvWrite FDebug; EvUnlock ]
    /\ trace w2 = trace w ++ [ EvLock; EvWrite FDebug; EvUnlock ]
    /\ calls w1 = calls w /\ calls w2 = calls w
    /\ well_locked (trace w1) = true /\ well_locked (trace w2) = true
    /\ locks_after 0 0 (trace w1) = locks_after 0 0 (trace w)
    /\ locks_after 0 0 (trace w2) = locks_after 0 0 (trace w).
Proof.
  intros Hw. unfold well_locked in *.
  assert (Hseg : guarded 0 0 (trace w ++ [ EvLock; EvWrite FDebug; EvUnlock ])
                 = true
                 /\ locks_after 0 0
                      (trace w ++ [ EvLock; EvWrite FDebug; EvUnlock ])
                    = locks_after 0 0 (trace w)).
  { rewrite guarded_app, locks_after_app, Hw.
    destruct (locks_after 0 0 (trace w)) as [r wr]. split; reflexivity. }
  destruct Hseg as [Hg Hl].
  do 4 eexists.
  cbv [EnableDebug DisableDebug bind emit ret calls trace].
  rewrite <- !app_assoc. cbn [app].
  split; [reflexivity |]. split; [reflexivity |].
  cbn [trace calls Debug AppKey AppSecret FromCode httpClient timeout
       maxRetries set_Debug].
  repeat split; assumption.
Qed.

End Quiet.

(** Three attempts with debugging off: nothing printed. *)
Lemma no_output_without_debug_witness :
  Observe.printed
    (Sto.trace
       (Sto.world_of
          (Sto.QueryTrace 4 (Lab.client Lab.always_retry 2) Lab.query
             Sto.init_world)))
  = [].
Proof.
  apply (no_output_without_debug (Lab.client Lab.always_retry 2)
           Lab.always_retry Lab.query 4); reflexivity.
Defined.

(** The same call before and after [EnableDebug]. *)
Lemma debug_changes_output_only_witness :
  Observe.mute
    (Sto.QueryTrace 4 (Sto.set_Debug true (Lab.client Lab.always_retry 2))
       Lab.query Sto.init_world)
  = Observe.mute
      (Sto.QueryTrace 4 (Lab.client Lab.always_retry 2) Lab.query
         Sto.init_world).
Proof.
  apply (debug_changes_output_only (Lab.client Lab.always_retry 2)
           Lab.always_retry Lab.query 4 Sto.init_world
           (Sto.set_Debug true (Lab.client Lab.always_retry 2))
           (Sto.mkWorld 0 [ Sto.EvLock; Sto.EvWrite Sto.FDebug; Sto.EvUnlock ])).
  - reflexivity.
  - left. reflexivity.
Defined.

(** A call that retries twice. *)
Lemma no_lock_while_waiting_witness :
  Observe.blocks_unlocked 0 0
    (Sto.trace
       (Sto.world_of
          (Sto.QueryTrace 4 (Lab.client Lab.always_retry 2) Lab.query
             Sto.init_world)))
  = true
  /\ Observe.locks_after 0 0
       (Sto.trace
          (Sto.world_of
             (Sto.QueryTrace 4 (Lab.client Lab.always_retry 2) Lab.query
                Sto.init_world)))
     = (0%nat, 0%nat).
Proof.
  apply (no_lock_while_waiting (Lab.client Lab.always_retry 2)
           Lab.always_retry Lab.query 4).
  reflexivity.
Defined.

(** The toggles on a fresh client: the flag changes, the retry budget
    and the transport stay. *)
Lemma toggles_keep_discipline_witness :
  exists c1 w1 c2 w2,
    Sto.EnableDebug (Lab.client Lab.always_retry 2) Sto.init_world
    = Sto.Return c1 w1
    /\ Sto.DisableDebug (Lab.client Lab.always_retry 2) Sto.init_world
       = Sto.Return c2 w2
    /\ Sto.Debug c1 = true /\ Sto.Debug c2 = false
    /\ Sto.maxRetries c1 = 2 /\ Sto.maxRetries c2 = 2
    /\ Sto.httpClient c1 = Some Lab.always_retry
    /\ Sto.httpClient c2 = Some Lab.always_retry.
Proof.
  destruct (toggles_keep_discipline (Lab.client Lab.always_retry 2)
              Sto.init_world eq_refl)
    as (c1 & w1 & c2 & w2 & H1 & H2 & H3 & H4 & F1 & F2 & _).
  destruct F1 as (_ & _ & _ & T1 & _ & R1).
  destruct F2 as (_ & _ & _ & T2 & _ & R2).
  exists c1, w1, c2, w2. repeat split; assumption.
Defined.

(* ------------------------------------------------------------------ *)
(** ** The shape of the URL and of the digest *)

Section Shape.

Import Sto Observe.

Context {RT : Runtime}.

Lemma count_char_app (a : ascii) (s t : string) :
  count_char a (s ++ t) = (count_char a s + count_char a t)%nat.
Proof.
  induction s as [| b s IH]; simpl; [reflexivity |]. rewrite IH. lia.
Qed.

Lemma string_of_list_ascii_app (l m : list ascii) :
  string_of_list_ascii (l ++ m)
  = (string_of_list_ascii l ++ string_of_list_ascii m)%string.
Proof.
  induction l as [| b l IH]; simpl; [reflexivity |]. rewrite IH. reflexivity.
Qed.

(** No byte is escaped to something that holds a separator. *)
Lemma escape_byte_clean (b : ascii) :
  let text :=
    string_of_list_ascii (Url.escape_byte (Z.of_N (N_of_ascii b))) in
  count_char "&" text = O /\ count_char "=" text = O
  /\ count_char "?" text = O.
Proof.
  destruct b as [[] [] [] [] [] [] [] []]; vm_compute; repeat split.
Qed.

Lemma QueryEscape_clean (s : string) :
  count_char "&" (Url.QueryEscape s) = O
  /\ count_char "=" (Url.QueryEscape s) = O
  /\ count_char "?" (Url.QueryEscape s) = O.
Proof.
  unfold Url.QueryEscape, Bytes.of_string.
  induction s as [| b s IH]; [repeat split |].
  cbn [list_ascii_of_string map flat_map].
  rewrite string_of_list_ascii_app, !count_char_app.
  destruct (escape_byte_clean b) as (H1 & H2 & H3). cbn zeta in H1, H2, H3.
  destruct IH as (I1 & I2 & I3).
  rewrite H1, H2, H3, I1, I2, I3. repeat split.
Qed.

(** X13: whatever the waybill numbers, the order and the credentials
    hold (separators, quotes, spaces, any byte), the URL of a call has
    exactly one question mark, six ampersands and seven equals signs:
    the seven parameters and no more.  No value can add or cut a
    parameter. *)
Theorem url_has_seven_parameters c req :
  count_char "?" (url_of c req) = 1%nat
  /\ count_char "&" (url_of c req) = 6%nat
  /\ count_char "=" (url_of c req) = 7%nat.
Proof.
  rewrite url_of_written_out.
  destruct (QueryEscape_clean (content_of req)) as (A1 & A2 & A3).
  destruct (QueryEscape_clean (data_digest (content_of req) (AppSecret c)))
    as (B1 & B2 & B3).
  destruct (QueryEscape_clean (AppKey c)) as (C1 & C2 & C3).
  destruct (QueryEscape_clean (FromCode c)) as (D1 & D2 & D3).
  rewrite !count_char_app.
  rewrite A1, A2, A3, B1, B2, B3, C1, C2, C3, D1, D2, D3.
  repeat split; vm_compute; reflexivity.
Qed.

Lemma Sum_length (msg : list Z) : List.length (MD5.Sum msg) = 16%nat.
Proof. unfold MD5.Sum. rewrite !length_app. reflexivity. Qed.

Lemma encode_16 (l : list Z) :
  List.length l = 16%nat ->
  exists pre,
    List.length pre = 22%nat
    /\ Base64.encode l = pre ++ [ "="%char; "="%char ].
Proof.
  intros H.
  do 16 (destruct l as [| ? l]; [discriminate |]).
  destruct l; [| discriminate].
  cbn [Base64.encode]. eexists (_ :: _ :: _ :: _ :: _ :: _ :: _ :: _ :: _ :: _
    :: _ :: _ :: _ :: _ :: _ :: _ :: _ :: _ :: _ :: _ :: _ :: _ :: nil).
  split; reflexivity.
Qed.

Lemma length_string_of_list_ascii (l : list ascii) :
  String.length (string_of_list_ascii l) = List.length l.
Proof. induction l as [| b l IH]; simpl; [reflexivity |]. rewrite IH. reflexivity. Qed.

(** X14: the signature is always 24 characters long and ends with two
    padding characters, whatever the content and the secret: the MD5
    sum is 16 bytes, which base64 writes as 22 digits and [==]. *)
Theorem data_digest_shape (content secret : string) :
  String.length (data_digest content secret) = 24%nat
  /\ exists digits,
       String.length digits = 22%nat
       /\ data_digest content secret = (digits ++ "==")%string.
Proof.
  unfold data_digest, Base64.EncodeToString.
  destruct (encode_16 _ (Sum_length (Bytes.of_string (content ++ secret))))
    as (pre & Hlen & ->).
  split.
  - rewrite length_string_of_list_ascii, length_app, Hlen. reflexivity.
  - exists (string_of_list_ascii pre). split.
    + rewrite length_string_of_list_ascii. exact Hlen.
    + rewrite string_of_list_ascii_app. reflexivity.
Qed.

(** X15: the two validation failures and their messages.  An empty
    waybill list is reported first, whatever the order field holds; an
    order that is none of the empty string, [asc] and [desc] is reported
    when the list is not empty.  Both come back at once, with the nil
    response, from any client, and leave the world as it was. *)
Theorem validation_messages fuel c req w :
  (WaybillNoList req = [] ->
   QueryTrace fuel c req w
   = Return (None,
             Some "invalid request: waybillNoList cannot be empty"%string) w)
  /\ (WaybillNoList req <> [] ->
      ~ In (Order req) [ EmptyString; "asc"%string; "desc"%string ] ->
      QueryTrace fuel c req w
      = Return (None,
                Some "invalid request: order must be either 'asc' or 'desc'"
                     %string) w).
Proof.
  split.
  - intros Hl. apply QueryTrace_invalid. unfold Validate. rewrite Hl.
    reflexivity.
  - intros Hl Ho. apply QueryTrace_invalid. unfold Validate.
    destruct (WaybillNoList req) as [| x l]; [contradiction |].
    cbn [List.length Nat.eqb].
    destruct (String.eqb_spec (Order req) "") as [E | _];
      [exfalso; apply Ho; rewrite E; simpl; auto |].
    destruct (String.eqb_spec (Order req) "asc") as [E | _];
      [exfalso; apply Ho; rewrite E; simpl; auto |].
    destruct (String.eqb_spec (Order req) "desc") as [E | _];
      [exfalso; apply Ho; rewrite E; simpl; auto |].
    reflexivity.
Qed.

End Shape.

(** An empty list with a bad order, and a bad order alone. *)
Lemma validation_messages_witness :
  Sto.QueryTrace 1 (Lab.client Lab.always_fail 3)
    (Sto.mkTraceQueryRequest "sideways" []) Sto.init_world
  = Sto.Return
      (None, Some "invalid request: waybillNoList cannot be empty"%string)
      Sto.init_world
  /\ Sto.QueryTrace 1 (Lab.client Lab.always_fail 3)
       (Sto.mkTraceQueryRequest "ASC" [ "773123456789012"%string ])
       Sto.init_world
     = Sto.Return
         (None,
          Some "invalid request: order must be either 'asc' or 'desc'"%string)
         Sto.init_world.
Proof.
  split.
  - apply (proj1 (validation_messages 1 (Lab.client Lab.always_fail 3)
                    (Sto.mkTraceQueryRequest "sideways" []) Sto.init_world)).
    reflexivity.
  - apply (proj2 (validation_messages 1 (Lab.client Lab.always_fail 3)
                    (Sto.mkTraceQueryRequest "ASC" [ "773123456789012"%string ])
                    Sto.init_world)).
    + discriminate.
    + simpl. intros [H | [H | [H | []]]]; discriminate.
Defined.
